(** * The application state store of the calorie tracker (hooks/useAppState)

    A shallow embedding of [src/hooks/useAppState.tsx]: the [AppState] value
    kept by [AppStateProvider], its rehydration from [localStorage] on mount,
    the write-through persistence effect, and the operations the provider
    hands to its consumers ([getLogForDate], [addFood], [addExercise],
    [removeFood], [removeExercise], [clearChatHistory], [importData]).

    The store is untyped at run time: [importData] installs whatever value
    passes its three checks, and the load effect spreads whatever
    [JSON.parse] returned.  The state is therefore a JavaScript value, and
    the operations are written with the semantics of the JavaScript
    operators they use ([.], [||], [&&], object and array spread, [filter],
    [typeof], [!==]).  A thrown [TypeError] is a result of its own. *)

From Stdlib Require Import ZArith String Ascii DecimalString DecimalZ.
From Stdlib Require Import Floats.SpecFloat.
From stdpp Require Import gmap strings list fin_maps.

#[local] Set Warnings "-register-all".
#[local] Open Scope string_scope.

(** ** The fragment of JavaScript the store is written in *)

Module JS.

(** A number is an IEEE 754 value: a signed zero, a signed infinity, NaN,
    or sign, mantissa and exponent. *)
Abbreviation Number := spec_float.
Abbreviation NaN := S754_nan.

Definition number_of_Z (z : Z) : Number :=
  match z with
  | Z0 => S754_zero false
  | Zpos p => S754_finite false p 0
  | Zneg p => S754_finite true p 0
  end.

(** Values.  [VObj] is a plain object (its own enumerable string-keyed
    properties; its prototype is [Object.prototype]), as an object
    literal or [JSON.parse] builds it.  [VNative] stands for a built-in
    that is reached through the prototype chain (a method of
    [Object.prototype], or that object itself): truthy, and not a number,
    a string or an array. *)
Inductive Value : Type :=
| VUndefined
| VNull
| VBool (b : bool)
| VNum (n : Number)
| VStr (s : string)
| VArr (items : list Value)
| VObj (props : gmap string Value)
| VNative (name : string).

Inductive Error : Type :=
| TypeError
| SyntaxError
| DOMException.

Inductive Result (A : Type) : Type :=
| Ok (a : A)
| Throw (e : Error).
Arguments Ok {A} a.
Arguments Throw {A} e.

#[export] Instance Result_ret : MRet Result := λ A a, Ok a.
#[export] Instance Result_bind : MBind Result := λ A B f m,
  match m with
  | Ok a => f a
  | Throw e => Throw e
  end.

(** [ToBoolean]: the falsy values are [undefined], [null], [false], [+0],
    [-0], [NaN] and the empty string. *)
Definition truthy (v : Value) : bool :=
  match v with
  | VUndefined | VNull => false
  | VBool b => b
  | VNum (S754_zero _) | VNum S754_nan => false
  | VNum _ => true
  | VStr s => negb (String.eqb s "")
  | VArr _ | VObj _ | VNative _ => true
  end.

(** [a || b] on values already evaluated (call it only where evaluating
    [b] has no effect and cannot throw). *)
Definition or_else (a b : Value) : Value := if truthy a then a else b.

(** [typeof v === 'number'] *)
Definition typeof_is_number (v : Value) : bool :=
  match v with
  | VNum _ => true
  | _ => false
  end.

(** [v !== s] for a string [s]: strict inequality never converts. *)
Definition strict_ne_string (v : Value) (s : string) : bool :=
  match v with
  | VStr t => negb (String.eqb t s)
  | _ => true
  end.

(** [Number.prototype.toString] of an integer (as [Date.now()] returns):
    the decimal digits, with a minus sign below zero. *)
Definition toString (z : Z) : string := NilZero.string_of_int (Z.to_int z).

(** The canonical numeric string of an array index. *)
Definition index_key (i : nat) : string := NilZero.string_of_uint (Nat.to_uint i).

Definition indexed (items : list Value) : gmap string Value :=
  list_to_map (imap (λ i x, (index_key i, x)) items).

(** The elements of a string, one-character strings.  (A JavaScript string
    is a sequence of UTF-16 code units and a [string] here a sequence of
    bytes; the two agree on ASCII text.) *)
Fixpoint chars (s : string) : list Value :=
  match s with
  | EmptyString => []
  | String c r => VStr (String c EmptyString) :: chars r
  end.

(** The own enumerable string-keyed properties of a value: what object
    spread [{...v}] copies.  Spreading [undefined], [null], a boolean or a
    number copies nothing and does not throw. *)
Definition own_enumerable (v : Value) : gmap string Value :=
  match v with
  | VObj props => props
  | VArr items => indexed items
  | VStr s => indexed (chars s)
  | _ => ∅
  end.

(** Own properties, enumerable or not: arrays and strings also own
    [length]. *)
Definition own_property (v : Value) (k : string) : option Value :=
  match v with
  | VArr items =>
      if String.eqb k "length" then Some (VNum (number_of_Z (Z.of_nat (length items))))
      else indexed items !! k
  | VStr s =>
      if String.eqb k "length" then Some (VNum (number_of_Z (Z.of_nat (String.length s))))
      else indexed (chars s) !! k
  | _ => own_enumerable v !! k
  end.

(** The string-keyed properties of [Object.prototype], which every value
    but [undefined] and [null] inherits. *)
Definition Object_prototype : list string :=
  [ "constructor"; "hasOwnProperty"; "isPrototypeOf"; "propertyIsEnumerable";
    "toLocaleString"; "toString"; "valueOf"; "__proto__";
    "__defineGetter__"; "__defineSetter__"; "__lookupGetter__"; "__lookupSetter__" ].

(** What a property that is not an own property resolves to.  The members
    that [Array.prototype], [String.prototype], [Number.prototype] and
    [Boolean.prototype] add ([filter], [includes], [toFixed], ...) are left
    out: the store reads the fixed names [logs], [dailyGoal], [language],
    [userProfile], [chatHistory], [macronutrientGoals], [food], [exercise]
    and [id], none of which is such a member, and a caller-chosen key only
    on [logs]. *)
Definition inherited (k : string) : Value :=
  if bool_decide (k ∈ Object_prototype) then VNative k else VUndefined.

(** [v.k] and [v[k]]: reading a property of [undefined] or [null] throws. *)
Definition get (v : Value) (k : string) : Result Value :=
  match v with
  | VUndefined | VNull => Throw TypeError
  | _ => Ok (default (inherited k) (own_property v k))
  end.

(** Array spread [[...v]]: arrays and strings are iterable, nothing else
    in this fragment is. *)
Definition iterate (v : Value) : Result (list Value) :=
  match v with
  | VArr items => Ok items
  | VStr s => Ok (chars s)
  | _ => Throw TypeError
  end.

(** [items.filter(keep)] with a callback that may throw. *)
Fixpoint filterM (keep : Value → Result bool) (items : list Value) : Result (list Value) :=
  match items with
  | [] => Ok []
  | x :: rest =>
      b ← keep x;
      kept ← filterM keep rest;
      Ok (if (b : bool) then x :: kept else kept)
  end.

(** [v.filter(keep)]: only arrays have the method; [undefined.filter],
    and calling the [undefined] that any other value gives for [filter],
    throw. *)
Definition filter (v : Value) (keep : Value → Result bool) : Result Value :=
  match v with
  | VArr items => kept ← filterM keep items; Ok (VArr kept)
  | _ => Throw TypeError
  end.

(** [String.prototype.toLowerCase], on ASCII text (locale tags are). *)
Definition lower (c : ascii) : ascii :=
  let n := nat_of_ascii c in
  if (65 <=? n)%nat && (n <=? 90)%nat then ascii_of_nat (n + 32) else c.

Fixpoint toLowerCase (s : string) : string :=
  match s with
  | EmptyString => EmptyString
  | String c r => String (lower c) (toLowerCase r)
  end.

Fixpoint startsWith (s p : string) {struct p} : bool :=
  match p, s with
  | EmptyString, _ => true
  | String _ _, EmptyString => false
  | String a p', String b s' => Ascii.eqb a b && startsWith s' p'
  end.

(** [s.includes(sub)]: [sub] occurs somewhere in [s]. *)
Fixpoint includes (s sub : string) : bool :=
  startsWith s sub ||
  match s with
  | EmptyString => false
  | String _ r => includes r sub
  end.

End JS.
Import JS.

(** ** The store *)

(** Object literals: [obj [(k1, v1); (k2, v2)]] is [{k1: v1, k2: v2}] (the
    literals below name each key once). *)
Definition obj (fields : list (string * Value)) : Value := VObj (list_to_map fields).

Definition num (z : Z) : Value := VNum (number_of_Z z).

Section Startup.

(** The host: [navigator.language] and [JSON.parse]. *)
Variable navigator_language : string.
Variable JSON_parse : string → Result Value.

Definition getInitialLanguage : string :=
  let browserLang := toLowerCase navigator_language in
  if includes browserLang "zh-tw" || includes browserLang "zh-hk" then "zh-TW"
  else "en".

Definition initial_macronutrientGoals : Value :=
  obj [("protein", num 150); ("carbs", num 250); ("fat", num 60)].

Definition initial_userProfile : Value :=
  obj [("age", VNull); ("sex", VNull); ("weight", VNull); ("height", VNull);
       ("activityLevel", VStr "moderate")].

Definition initialAppState : Value :=
  obj [("dailyGoal", num 2000);
       ("macronutrientGoals", initial_macronutrientGoals);
       ("logs", obj []);
       ("customFoods", VArr []);
       ("apiKey", VNull);
       ("aiModel", VStr "gemini-2.5-flash");
       ("language", VStr getInitialLanguage);
       ("userProfile", initial_userProfile);
       ("chatHistory", VArr [])].

(** The body of the [try] block of the load effect, given what
    [localStorage.getItem('calorieTrackerState')] did: the state it hands to
    [setAppState], or what it throws. *)
Definition load_try (item : Result (option string)) : Result Value :=
  storedState ← item;
  match storedState with
  | Some blob =>
      if truthy (VStr blob) then
        parsedState ← JSON_parse blob;
        l ← get parsedState "language";
        let language := or_else l (VStr getInitialLanguage) in
        u ← get parsedState "userProfile";
        let userProfile := or_else u initial_userProfile in
        c ← get parsedState "chatHistory";
        let chatHistory := or_else c (VArr []) in
        m ← get parsedState "macronutrientGoals";
        let macronutrientGoals := or_else m initial_macronutrientGoals in
        Ok (VObj (<["macronutrientGoals" := macronutrientGoals]>
                 (<["chatHistory" := chatHistory]>
                 (<["userProfile" := userProfile]>
                 (<["language" := language]>
                 (own_enumerable parsedState ∪ own_enumerable initialAppState))))))
      else Ok initialAppState
  | None => Ok initialAppState
  end.

(** The load effect: the [catch] branch logs and falls back to the initial
    state. *)
Definition load (item : Result (option string)) : Value :=
  match load_try item with
  | Ok state => state
  | Throw _ => initialAppState
  end.

End Startup.

(** What [AppStateProvider] holds: its three pieces of React state (the
    selected date through [dateString = getDateString(selectedDate)], which
    is all the operations read of it) and, for the persistence effect, the
    states it handed to
    [localStorage.setItem('calorieTrackerState', JSON.stringify(.))], latest
    first.  A write that throws is caught and logged; it is recorded here as
    attempted. *)
Record Store : Type := mkStore {
  appState : Value;
  isInitialized : bool;
  dateString : string;
  persisted : list Value
}.

Definition with_appState (v : Value) (s : Store) : Store :=
  {| appState := v; isInitialized := isInitialized s;
     dateString := dateString s; persisted := persisted s |}.

(** The persistence effect, run after a render in which [appState] or
    [isInitialized] changed. *)
Definition persist_effect (s : Store) : Store :=
  if isInitialized s then
    {| appState := appState s; isInitialized := true;
       dateString := dateString s; persisted := appState s :: persisted s |}
  else s.

(** Mounting the provider.  The first render has the initial state and
    [isInitialized = false]; the load effect then sets both pieces of state;
    the persistence effect of the first render still sees
    [isInitialized = false] and writes nothing; the render that follows
    runs it again, now on the loaded state. *)
Definition mount (navigator_language : string) (JSON_parse : string → Result Value)
    (item : Result (option string)) (date : string) : Store :=
  persist_effect
    {| appState := load navigator_language JSON_parse item; isInitialized := true;
       dateString := date; persisted := [] |}.

(** The state consumers see once the provider has mounted. *)
Definition mounted_state (navigator_language : string) (JSON_parse : string → Result Value)
    (item : Result (option string)) (date : string) : Value :=
  appState (mount navigator_language JSON_parse item date).

(** What an updater or a caller hands to [setAppState]: the previous state
    object itself ([Keep]: React compares with [Object.is], finds nothing
    changed, and no effect runs), or a value built afresh. *)
Inductive Next : Type :=
| Keep
| Replace (state : Value).

Definition setAppState (n : Next) (s : Store) : Store :=
  match n with
  | Keep => s
  | Replace state => persist_effect (with_appState state s)
  end.

(** [updateState(updater)]: the updater runs on the latest state; what it
    throws reaches the caller's render. *)
Definition updateState (updater : Value → Result Next) (s : Store) : Result Store :=
  n ← updater (appState s);
  Ok (setAppState n s).

Definition emptyLog : Value := obj [("food", VArr []); ("exercise", VArr [])].

Definition getLogForDate (date : string) (s : Store) : Result Value :=
  logs ← get (appState s) "logs";
  log ← get logs date;
  Ok (or_else log emptyLog).

(** [now] is what [Date.now()] returns inside the updater. *)
Definition addFood (food : Value) (now : Z) (s : Store) : Result Store :=
  updateState (λ prev,
    let newFoodEntry := VObj (<["id" := VStr (toString now)]> (own_enumerable food)) in
    logs ← get prev "logs";
    log ← get logs (dateString s);
    let currentLog := or_else log emptyLog in
    f ← get currentLog "food";
    items ← iterate f;
    let newLog := VObj (<["food" := VArr (items ++ [newFoodEntry])]> (own_enumerable currentLog)) in
    Ok (Replace (VObj (<["logs" := VObj (<[dateString s := newLog]> (own_enumerable logs))]>
                      (own_enumerable prev))))) s.

Definition addExercise (exercise : Value) (now : Z) (s : Store) : Result Store :=
  updateState (λ prev,
    let newExerciseEntry := VObj (<["id" := VStr (toString now)]> (own_enumerable exercise)) in
    logs ← get prev "logs";
    log ← get logs (dateString s);
    let currentLog := or_else log emptyLog in
    e ← get currentLog "exercise";
    items ← iterate e;
    let newLog := VObj (<["exercise" := VArr (items ++ [newExerciseEntry])]> (own_enumerable currentLog)) in
    Ok (Replace (VObj (<["logs" := VObj (<[dateString s := newLog]> (own_enumerable logs))]>
                      (own_enumerable prev))))) s.

Definition removeFood (foodId : string) (s : Store) : Result Store :=
  updateState (λ prev,
    logs ← get prev "logs";
    currentLog ← get logs (dateString s);
    if negb (truthy currentLog) then Ok Keep
    else
      f ← get currentLog "food";
      newFood ← filter f (λ f, i ← get f "id"; Ok (strict_ne_string i foodId));
      let newLog := VObj (<["food" := newFood]> (own_enumerable currentLog)) in
      Ok (Replace (VObj (<["logs" := VObj (<[dateString s := newLog]> (own_enumerable logs))]>
                        (own_enumerable prev))))) s.

Definition removeExercise (exerciseId : string) (s : Store) : Result Store :=
  updateState (λ prev,
    logs ← get prev "logs";
    currentLog ← get logs (dateString s);
    if negb (truthy currentLog) then Ok Keep
    else
      e ← get currentLog "exercise";
      newExercise ← filter e (λ e, i ← get e "id"; Ok (strict_ne_string i exerciseId));
      let newLog := VObj (<["exercise" := newExercise]> (own_enumerable currentLog)) in
      Ok (Replace (VObj (<["logs" := VObj (<[dateString s := newLog]> (own_enumerable logs))]>
                        (own_enumerable prev))))) s.

Definition clearChatHistory (s : Store) : Result Store :=
  updateState (λ prev,
    Ok (Replace (VObj (<["chatHistory" := VArr []]> (own_enumerable prev))))) s.

(** The condition of [importData]:
    [newState && newState.logs && typeof newState.dailyGoal === 'number'],
    evaluated left to right with the short circuits of [&&]. *)
Definition importData_check (newState : Value) : Result bool :=
  if truthy newState then
    logs ← get newState "logs";
    if truthy logs then
      dailyGoal ← get newState "dailyGoal";
      Ok (typeof_is_number dailyGoal)
    else Ok false
  else Ok false.

(** [importData(newState)]: its return value and the store after it.  The
    candidate is a value the caller built (parsed from a file), never the
    current state object itself. *)
Definition importData (newState : Value) (s : Store) : Result (bool * Store) :=
  valid ← importData_check newState;
  if (valid : bool) then Ok (true, setAppState (Replace newState) s)
  else Ok (false, s).

(** ** What consumers read, and the shapes the types promise *)

(** [getLogForDate(date).food] and [getLogForDate(date).exercise], as the
    log view reads them. *)
Definition foodOn (date : string) (s : Store) : Result Value :=
  log ← getLogForDate date s;
  get log "food".

Definition exerciseOn (date : string) (s : Store) : Result Value :=
  log ← getLogForDate date s;
  get log "exercise".

(** The [DailyLog] the [logs] mapping of a state holds under [date], if it
    holds one. *)
Definition stored_log (date : string) (state : Value) : option Value :=
  own_property state "logs" ≫= λ logs, own_property logs date.

(** A calendar date string, [YYYY-MM-DD]. *)
Definition is_digit (c : ascii) : bool :=
  let n := nat_of_ascii c in (48 <=? n)%nat && (n <=? 57)%nat.

Definition is_dash (c : ascii) : bool := Ascii.eqb c "-"%char.

Definition is_date_string (s : string) : bool :=
  match list_ascii_of_string s with
  | [y1; y2; y3; y4; a; m1; m2; b; d1; d2] =>
      is_digit y1 && is_digit y2 && is_digit y3 && is_digit y4 && is_dash a &&
      is_digit m1 && is_digit m2 && is_dash b && is_digit d1 && is_digit d2
  | _ => false
  end.

(** [FoodEntry] and [ExerciseEntry]: an object with a string [id]. *)
Definition entry_id (e : Value) : option string :=
  match e with
  | VObj props =>
      match props !! "id" with
      | Some (VStr i) => Some i
      | _ => None
      end
  | _ => None
  end.

Definition is_entry (e : Value) : bool :=
  match entry_id e with
  | Some _ => true
  | None => false
  end.

Definition has_id (i : string) (e : Value) : bool :=
  match entry_id e with
  | Some j => String.eqb j i
  | None => false
  end.

(** [DailyLog]: [{food: FoodEntry[], exercise: ExerciseEntry[]}]. *)
Definition is_DailyLog (log : Value) : bool :=
  match log with
  | VObj props =>
      match props !! "food", props !! "exercise" with
      | Some (VArr food), Some (VArr exercise) =>
          forallb is_entry food && forallb is_entry exercise
      | _, _ => false
      end
  | _ => false
  end.

(** The part of the [AppState] type the log operations rely on:
    [logs: Record<string, DailyLog>]. *)
Definition has_typed_logs (state : Value) : bool :=
  match state with
  | VObj props =>
      match props !! "logs" with
      | Some (VObj logs) => bool_decide (map_Forall (λ _ log, is_DailyLog log = true) logs)
      | _ => false
      end
  | _ => false
  end.

(** [setSelectedDate(date)], seen through [dateString]; [appState] and
    [isInitialized] do not change, so the persistence effect does not run. *)
Definition setSelectedDate (date : string) (s : Store) : Store :=
  {| appState := appState s; isInitialized := isInitialized s;
     dateString := date; persisted := persisted s |}.

(** The stores a consumer can be handed: the provider has mounted, and
    since then consumers have called [updateState] (every operation but
    [importData] is such a call), [importData] and [setSelectedDate]. *)
Inductive reachable : Store → Prop :=
| reach_mount navigator_language JSON_parse item date :
    reachable (mount navigator_language JSON_parse item date)
| reach_updateState updater s s' :
    reachable s → updateState updater s = Ok s' → reachable s'
| reach_importData newState s accepted s' :
    reachable s → importData newState s = Ok (accepted, s') → reachable s'
| reach_setSelectedDate date s :
    reachable s → reachable (setSelectedDate date s).

(** [{ ...entry, id: Date.now().toString() }], the entry [addFood] and
    [addExercise] append. *)
Definition stamped (entry : Value) (now : Z) : Value :=
  VObj (<["id" := VStr (toString now)]> (own_enumerable entry)).

(** ** Sample values *)

Module Sample.

Definition quote : string := String (ascii_of_nat 34) EmptyString.

(** The JSON text of [{dailyGoal: 1800}]. *)
Definition goal_blob : string := "{" +:+ quote +:+ "dailyGoal" +:+ quote +:+ ":1800}".

(** A host whose [JSON.parse] knows three blobs. *)
Definition parse (blob : string) : Result Value :=
  if String.eqb blob goal_blob then Ok (obj [("dailyGoal", num 1800)])
  else if String.eqb blob "null" then Ok VNull
  else if String.eqb blob "[7]" then Ok (VArr [num 7])
  else Throw SyntaxError.

Definition fresh : Store := mount "en-US" parse (Ok None) "2024-01-01".

Definition apple : Value :=
  obj [("name", VStr "Apple"); ("calories", num 95); ("protein", num 0);
       ("carbs", num 25); ("fat", num 0); ("meal", VStr "snack")].

Definition banana : Value :=
  obj [("name", VStr "Banana"); ("calories", num 105); ("protein", num 1);
       ("carbs", num 27); ("fat", num 0); ("meal", VStr "snack")].

Definition run : Value :=
  obj [("name", VStr "Run"); ("duration", num 30); ("calories", num 300)].

Definition swim : Value :=
  obj [("name", VStr "Swim"); ("duration", num 45); ("calories", num 400)].

Definition with_id (i : string) (entry : Value) : Value :=
  VObj (<["id" := VStr i]> (own_enumerable entry)).

(** A state whose log of 2024-01-01 already holds an apple with id [5]. *)
Definition one_apple : Store :=
  {| appState :=
       obj [("dailyGoal", num 2000);
            ("logs", obj [("2024-01-01",
                           obj [("food", VArr [with_id "5" apple]);
                                ("exercise", VArr [])])]);
            ("chatHistory", VArr [obj [("role", VStr "user"); ("text", VStr "hi")]])];
     isInitialized := true;
     dateString := "2024-01-01";
     persisted := [] |}.

Definition backup : Value :=
  obj [("dailyGoal", num 1500); ("logs", obj []);
       ("chatHistory", VArr []); ("userProfile", obj [("age", num 30)])].

End Sample.

(** ** The rest of the provider *)

(** [s.split(c)] for a one-character separator: the pieces between the
    occurrences of [c], at least one piece. *)
Fixpoint split_on (sep : ascii) (s : string) : list string :=
  match s with
  | EmptyString => [EmptyString]
  | String c r =>
      if Ascii.eqb c sep then EmptyString :: split_on sep r
      else
        match split_on sep r with
        | piece :: pieces => String c piece :: pieces
        | [] => [String c EmptyString]
        end
  end.

(** [getDateString(date)], given the text [date.toISOString()] returned:
    [iso.split('T')[0]]. *)
Definition getDateString (iso : string) : Value :=
  default VUndefined (VStr <$> head (split_on "T"%char iso)).

(** A plain object, as against a primitive, an array or a built-in. *)
Definition is_plain_object (v : Value) : bool :=
  match v with
  | VObj _ => true
  | _ => false
  end.

(** The updaters the setters hand to [updateState]. *)
Definition setDailyGoal_updater (goal : Value) (prev : Value) : Result Next :=
  Ok (Replace (VObj (<["dailyGoal" := goal]> (own_enumerable prev)))).

Definition setApiKey_updater (apiKey : Value) (prev : Value) : Result Next :=
  Ok (Replace (VObj (<["apiKey" := apiKey]> (own_enumerable prev)))).

Definition setMacronutrientGoals_updater (goals : Value) (prev : Value) : Result Next :=
  Ok (Replace (VObj (<["macronutrientGoals" := goals]> (own_enumerable prev)))).

Definition setAiModel_updater (aiModel : Value) (prev : Value) : Result Next :=
  Ok (Replace (VObj (<["aiModel" := aiModel]> (own_enumerable prev)))).

Definition setLanguage_updater (language : Value) (prev : Value) : Result Next :=
  Ok (Replace (VObj (<["language" := language]> (own_enumerable prev)))).

(** [{ ...prev, userProfile: { ...prev.userProfile, ...profile } }] *)
Definition updateUserProfile_updater (profile : Value) (prev : Value) : Result Next :=
  userProfile ← get prev "userProfile";
  Ok (Replace (VObj (<["userProfile" :=
                        VObj (own_enumerable profile ∪ own_enumerable userProfile)]>
                    (own_enumerable prev)))).

Definition setChatHistory_updater (history : Value) (prev : Value) : Result Next :=
  Ok (Replace (VObj (<["chatHistory" := history]> (own_enumerable prev)))).

Definition setDailyGoal (goal : Value) (s : Store) : Result Store :=
  updateState (setDailyGoal_updater goal) s.

Definition setApiKey (apiKey : Value) (s : Store) : Result Store :=
  updateState (setApiKey_updater apiKey) s.

Definition setMacronutrientGoals (goals : Value) (s : Store) : Result Store :=
  updateState (setMacronutrientGoals_updater goals) s.

Definition setAiModel (aiModel : Value) (s : Store) : Result Store :=
  updateState (setAiModel_updater aiModel) s.

Definition setLanguage (language : Value) (s : Store) : Result Store :=
  updateState (setLanguage_updater language) s.

Definition updateUserProfile (profile : Value) (s : Store) : Result Store :=
  updateState (updateUserProfile_updater profile) s.

Definition setChatHistory (history : Value) (s : Store) : Result Store :=
  updateState (setChatHistory_updater history) s.

(** The hook.  [createContext<any>(null)] makes [null] the value
    [useContext] gives outside every provider. *)
Definition AppStateContext_default : Value := VNull.

Definition useContext (provider : option Value) : Value :=
  default AppStateContext_default provider.

Inductive HookResult : Type :=
| Returned (context : Value)
| ThrownError (message : string).

(** [useAppState()]: [context === undefined] holds of [undefined] only. *)
Definition useAppState (provider : option Value) : HookResult :=
  let context := useContext provider in
  match context with
  | VUndefined => ThrownError "useAppState must be used within an AppStateProvider"
  | _ => Returned context
  end.

(** ** Device locales *)

(** The alphabet, in capitals and in small letters. *)
Definition capitals : string := "ABCDEFGHIJKLMNOPQRSTUVWXYZ".

Definition small_letters : string := "abcdefghijklmnopqrstuvwxyz".

(** Each capital with its small letter. *)
Definition letters : list (ascii * ascii) :=
  zip (list_ascii_of_string capitals) (list_ascii_of_string small_letters).

(** The same character, or the capital and the small form of one letter. *)
Definition same_letter (a b : ascii) : bool :=
  Ascii.eqb a b
  || existsb (λ l, Ascii.eqb a l.1 && Ascii.eqb b l.2
                   || Ascii.eqb a l.2 && Ascii.eqb b l.1) letters.

(** The same text, whatever the case of its letters. *)
Fixpoint same_text (s t : string) : bool :=
  match s, t with
  | EmptyString, EmptyString => true
  | String a s, String b t => same_letter a b && same_text s t
  | _, _ => false
  end.

(** The region subtag of Taiwan or of Hong Kong. *)
Definition taiwan_or_hong_kong (subtag : string) : bool :=
  same_text subtag "TW" || same_text subtag "HK".

(** A locale that indicates Traditional Chinese as written in Taiwan or in
    Hong Kong.  A locale is a language tag: subtags separated by hyphens,
    the language first, then an optional script, then the region.  The
    language is Chinese, the script, when given, is the traditional one,
    and the region is Taiwan or Hong Kong: [zh-TW], [zh-HK], [zh-Hant-TW],
    [zh-Hant-HK].  This reading is independent of how [getInitialLanguage]
    tests the locale. *)
Definition indicates_traditional_chinese (locale : string) : bool :=
  match split_on "-"%char locale with
  | language :: subtags =>
      same_text language "zh"
      && match subtags with
         | script :: region :: _ =>
             taiwan_or_hong_kong script
             || same_text script "Hant" && taiwan_or_hong_kong region
         | region :: _ => taiwan_or_hong_kong region
         | [] => false
         end
  | [] => false
  end.

(** The text of the locale contains [zh-TW] or [zh-HK], anywhere and in any
    letter case. *)
Definition contains_tag (locale : string) : Prop :=
  ∃ before tag after : string,
    locale = before +:+ tag +:+ after
    ∧ (same_text tag "zh-TW" = true ∨ same_text tag "zh-HK" = true).

(** ** Event handlers of the views *)

(** The state updates an event handler queues are applied in one render,
    in the order queued, each updater on the result of the one before; the
    effects then run once.  [Keep] is the state object the render started
    from. *)
Fixpoint run_queue (queue : list (Value → Result Next)) (prev : Value) : Result Next :=
  match queue with
  | [] => Ok Keep
  | updater :: rest =>
      n ← updater prev;
      match n with
      | Keep => run_queue rest prev
      | Replace state =>
          r ← run_queue rest state;
          Ok (match r with
              | Keep => Replace state
              | Replace final => Replace final
              end)
      end
  end.

Definition commit (queue : list (Value → Result Next)) (s : Store) : Result Store :=
  n ← run_queue queue (appState s);
  Ok (setAppState n s).

(** What the settings form holds. *)
Record SettingsForm : Type := mkSettingsForm {
  form_apiKey : Value;
  form_aiModel : Value;
  form_language : Value;
  form_userProfile : Value;
  form_dailyGoal : Value;
  form_macronutrientGoals : Value
}.

(** [handleSave] of the settings view, as far as the store goes: six
    setter calls in one click. *)
Definition handleSave (localState : SettingsForm) (s : Store) : Result Store :=
  commit [ setApiKey_updater (form_apiKey localState);
           setAiModel_updater (form_aiModel localState);
           setLanguage_updater (form_language localState);
           updateUserProfile_updater (form_userProfile localState);
           setDailyGoal_updater (form_dailyGoal localState);
           setMacronutrientGoals_updater (form_macronutrientGoals localState) ] s.

(** [input.trim() === '']: the text holds nothing but white space and line
    terminators.  Strings are UTF-8 here, so the code points above U+007F
    that [trim] strips are matched by their byte sequences. *)
Fixpoint is_blank_bytes (bytes : list nat) : bool :=
  match bytes with
  | [] => true
  | a :: rest =>
      if ((9 <=? a)%nat && (a <=? 13)%nat) || (a =? 32)%nat then is_blank_bytes rest
      else
        match rest with
        | b :: rest1 =>
            if (a =? 194)%nat && (b =? 160)%nat then is_blank_bytes rest1
            else
              match rest1 with
              | c :: rest2 =>
                  if ((a =? 225)%nat && (b =? 154)%nat && (c =? 128)%nat)
                     || ((a =? 226)%nat && (b =? 128)%nat
                         && (((128 <=? c)%nat && (c <=? 138)%nat)
                             || (c =? 168)%nat || (c =? 169)%nat || (c =? 175)%nat))
                     || ((a =? 226)%nat && (b =? 129)%nat && (c =? 159)%nat)
                     || ((a =? 227)%nat && (b =? 128)%nat && (c =? 128)%nat)
                     || ((a =? 239)%nat && (b =? 187)%nat && (c =? 191)%nat)
                  then is_blank_bytes rest2
                  else false
              | [] => false
              end
        | [] => false
        end
  end.

Definition is_blank (s : string) : bool :=
  is_blank_bytes (nat_of_ascii <$> list_ascii_of_string s).

(** What the assistant view holds besides the store. *)
Record AiView : Type := mkAiView {
  input : string;
  isLoading : bool
}.

Definition chat_message (role text : string) : Value :=
  obj [("role", VStr role); ("text", VStr text)].

(** [handleSend] up to its [await]: the view and the store it leaves, and,
    when a request went out, the [newHistory] the rest of the handler keeps
    in its closure. *)
Definition handleSend_start (view : AiView) (s : Store)
    : Result (AiView * Store * option (list Value)) :=
  if is_blank (input view) || isLoading view then Ok (view, s, None)
  else
    apiKey ← get (appState s) "apiKey";
    if negb (truthy apiKey) then Ok (view, s, None)
    else
      chatHistory ← get (appState s) "chatHistory";
      items ← iterate chatHistory;
      let newHistory := (items ++ [chat_message "user" (input view)])%list in
      s1 ← setChatHistory (VArr newHistory) s;
      Ok ({| input := ""; isLoading := true |}, s1, Some newHistory).

(** [handleSend] after its [await], with the text [getAiAdvice] resolved
    to, on the view and the store as they are by then. *)
Definition handleSend_finish (newHistory : list Value) (aiResponse : string)
    (view : AiView) (s : Store) : Result (AiView * Store) :=
  s1 ← setChatHistory (VArr (newHistory ++ [chat_message "model" aiResponse])%list) s;
  Ok ({| input := input view; isLoading := false |}, s1).

(** [handleImport] once the file is read: which alert it shows, and the
    store.  [Imported] is followed by [window.location.reload()]. *)
Inductive ImportOutcome : Type :=
| Imported
| ImportError.

Definition handleImport (JSON_parse : string → Result Value) (text : string) (s : Store)
    : ImportOutcome * Store :=
  match newState ← JSON_parse text; importData newState s with
  | Ok (true, s1) => (Imported, s1)
  | Ok (false, s1) => (ImportError, s1)
  | Throw _ => (ImportError, s)
  end.

(** ** Runs of the provider's operations *)

Inductive Operation : Type :=
| AddFood (food : Value) (now : Z)
| AddExercise (exercise : Value) (now : Z)
| RemoveFood (foodId : string)
| RemoveExercise (exerciseId : string)
| SetDailyGoal (goal : Value)
| SetApiKey (apiKey : Value)
| SetMacronutrientGoals (goals : Value)
| SetAiModel (aiModel : Value)
| SetLanguage (language : Value)
| UpdateUserProfile (profile : Value)
| SetChatHistory (history : Value)
| ClearChatHistory
| SetSelectedDate (date : string).

Definition perform (op : Operation) (s : Store) : Result Store :=
  match op with
  | AddFood food now => addFood food now s
  | AddExercise exercise now => addExercise exercise now s
  | RemoveFood foodId => removeFood foodId s
  | RemoveExercise exerciseId => removeExercise exerciseId s
  | SetDailyGoal goal => setDailyGoal goal s
  | SetApiKey apiKey => setApiKey apiKey s
  | SetMacronutrientGoals goals => setMacronutrientGoals goals s
  | SetAiModel aiModel => setAiModel aiModel s
  | SetLanguage language => setLanguage language s
  | UpdateUserProfile profile => updateUserProfile profile s
  | SetChatHistory history => setChatHistory history s
  | ClearChatHistory => clearChatHistory s
  | SetSelectedDate date => Ok (setSelectedDate date s)
  end.

Fixpoint perform_all (ops : list Operation) (s : Store) : Result Store :=
  match ops with
  | [] => Ok s
  | op :: rest => s1 ← perform op s; perform_all rest s1
  end.

Definition food_operation (op : Operation) : bool :=
  match op with
  | AddFood _ _ | RemoveFood _ => true
  | _ => false
  end.

Definition exercise_operation (op : Operation) : bool :=
  match op with
  | AddExercise _ _ | RemoveExercise _ => true
  | _ => false
  end.

(** The dates a run selects are calendar date strings (they come from
    [getDateString]). *)
Definition selects_dates (op : Operation) : bool :=
  match op with
  | SetSelectedDate date => is_date_string date
  | _ => true
  end.

(** The stores a session goes through: the provider mounts, and the
    views call the provider's operations and [importData]. *)
Inductive in_session : Store → Prop :=
| session_mount navigator_language JSON_parse item date :
    in_session (mount navigator_language JSON_parse item date)
| session_perform op s s' :
    in_session s → perform op s = Ok s' → in_session s'
| session_importData newState s accepted s' :
    in_session s → importData newState s = Ok (accepted, s') → in_session s'.

(** ** More sample values *)

Module SampleViews.

(** A store with an API key and one exchange in the chat. *)
Definition chatting : Store :=
  {| appState :=
       obj [("dailyGoal", num 2000); ("logs", obj []); ("apiKey", VStr "key");
            ("chatHistory", VArr [chat_message "user" "hi"; chat_message "model" "hello"])];
     isInitialized := true;
     dateString := "2024-01-01";
     persisted := [] |}.

Definition asking : AiView := {| input := "How many calories today?"; isLoading := false |}.

(** A host whose storage holds a state with [logs: null]. *)
Definition parse_null_logs (blob : string) : Result Value :=
  Ok (obj [("dailyGoal", num 1800); ("logs", VNull)]).

(** A host whose storage holds what the first start on an English device
    wrote. *)
Definition parse_first_start (blob : string) : Result Value :=
  Ok (load "en-US" Sample.parse (Ok None)).

End SampleViews.

(** ** Facts about the JavaScript fragment *)

Lemma toString_inj (a b : Z) : toString a = toString b → a = b.
Proof.
  unfold toString. intros E.
  assert (N : ∀ z, Z.to_int z ≠ Decimal.Pos Decimal.Nil ∧ Z.to_int z ≠ Decimal.Neg Decimal.Nil).
  { intros [|p|p]; simpl; split; try discriminate;
      intros H; injection H; apply DecimalPos.Unsigned.to_uint_nonnil. }
  destruct (N a) as [Ha1 Ha2], (N b) as [Hb1 Hb2].
  pose proof (NilZero.isi _ Ha1 Ha2) as Ia.
  pose proof (NilZero.isi _ Hb1 Hb2) as Ib.
  rewrite E, Ib in Ia. injection Ia as Ia.
  rewrite <- (DecimalZ.of_to a), <- (DecimalZ.of_to b). by rewrite Ia.
Qed.

Lemma startsWith_spec (s p : string) :
  startsWith s p = true ↔ ∃ after, s = p +:+ after.
Proof.
  revert s. induction p as [|a p IH]; intros s; simpl.
  - split; [intros _; by exists s | done].
  - destruct s as [|b s].
    + split; [done | intros [after E]; discriminate E].
    + rewrite andb_true_iff, IH. split.
      * intros [Hab [after ->]]. apply Ascii.eqb_eq in Hab as ->. by exists after.
      * intros [after E]. injection E as -> ->. split; [apply Ascii.eqb_refl | by exists after].
Qed.

Lemma includes_spec (s sub : string) :
  includes s sub = true ↔ ∃ before after, s = before +:+ sub +:+ after.
Proof.
  induction s as [|c s IH]; simpl; rewrite orb_true_iff, startsWith_spec.
  - split.
    + intros [[after E] | ?]; [|done]. by exists "", after.
    + intros ([|x before] & after & E); [left; by exists after | discriminate E].
  - rewrite IH. split.
    + intros [[after E] | (before & after & E)].
      * by exists "", after.
      * exists (String c before), after. simpl. by rewrite E.
    + intros ([|x before] & after & E).
      * left. by exists after.
      * right. injection E as -> E. by exists before, after.
Qed.

Lemma get_VObj (props : gmap string Value) (k : string) :
  get (VObj props) k = Ok (default (inherited k) (props !! k)).
Proof. reflexivity. Qed.

Lemma get_own (props : gmap string Value) (k : string) (v : Value) :
  props !! k = Some v → get (VObj props) k = Ok v.
Proof. intros H. by rewrite get_VObj, H. Qed.

Lemma date_string_not_inherited (d : string) :
  is_date_string d = true → inherited d = VUndefined.
Proof.
  intros H. unfold inherited. case_bool_decide as Hin; [|done].
  unfold Object_prototype in Hin.
  repeat (apply elem_of_cons in Hin as [-> | Hin]; [discriminate H|]).
  by apply elem_of_nil in Hin.
Qed.

Lemma get_date (logs : gmap string Value) (d : string) :
  is_date_string d = true →
  get (VObj logs) d = Ok (default VUndefined (logs !! d)).
Proof. intros H. by rewrite get_VObj, (date_string_not_inherited d H). Qed.

(** The callback of [removeFood] and [removeExercise] on typed entries. *)
Lemma filterM_entries (i : string) (items : list Value) :
  forallb is_entry items = true →
  filterM (λ e, j ← get e "id"; Ok (strict_ne_string j i)) items
  = Ok (List.filter (λ e, negb (has_id i e)) items).
Proof.
  induction items as [|e items IH]; [done|].
  cbn [forallb filterM List.filter].
  rewrite andb_true_iff. intros [He Hitems]. rewrite (IH Hitems). clear IH.
  unfold is_entry in He. unfold has_id.
  destruct e as [| | | | | |props|]; try discriminate He.
  rewrite get_VObj. cbn [entry_id] in *.
  destruct (props !! "id") as [[| | | |j| | |]|]; try discriminate He.
  simpl. by destruct (String.eqb j i).
Qed.

Lemma filter_none (i : string) (items : list Value) :
  forallb (λ e, negb (has_id i e)) items = true →
  List.filter (λ e, negb (has_id i e)) items = items.
Proof.
  induction items as [|e items IH]; simpl; [done|].
  rewrite andb_true_iff. intros [-> H]. by rewrite (IH H).
Qed.

Lemma filter_app_new (i : string) (items : list Value) (props : gmap string Value) :
  List.filter (λ e, negb (has_id i e)) (items ++ [VObj (<["id" := VStr i]> props)])
  = List.filter (λ e, negb (has_id i e)) items.
Proof.
  rewrite List.filter_app. simpl. unfold has_id at 2. simpl.
  rewrite lookup_insert_eq, String.eqb_refl. simpl. apply app_nil_r.
Qed.

(** ** [importData] *)

Lemma get_fixed_name (v : Value) (k : string) :
  truthy v = true → inherited k = VUndefined →
  get v k = Ok (default VUndefined (own_property v k)).
Proof. intros Hv Hk. destruct v; try discriminate Hv; unfold get; by rewrite Hk. Qed.

Lemma importData_check_eq (newState : Value) :
  importData_check newState
  = Ok (truthy newState
        && truthy (default VUndefined (own_property newState "logs"))
        && typeof_is_number (default VUndefined (own_property newState "dailyGoal"))).
Proof.
  unfold importData_check. destruct (truthy newState) eqn:Hv; [|done].
  rewrite !(get_fixed_name _ _ Hv) by done. simpl.
  by destruct (truthy (default VUndefined (own_property newState "logs"))).
Qed.

Lemma importData_eq (newState : Value) (s : Store) :
  importData newState s
  = if truthy newState
       && truthy (default VUndefined (own_property newState "logs"))
       && typeof_is_number (default VUndefined (own_property newState "dailyGoal"))
    then Ok (true, setAppState (Replace newState) s)
    else Ok (false, s).
Proof. unfold importData. by rewrite importData_check_eq. Qed.

Lemma reachable_isInitialized (s : Store) : reachable s → isInitialized s = true.
Proof.
  induction 1 as [| updater s s' _ IH H | newState s accepted s' _ IH H | date s _ IH].
  - reflexivity.
  - unfold updateState in H. destruct (updater (appState s)) as [[|state]|]; simplify_eq/=.
    + done.
    + unfold persist_effect. simpl. by rewrite IH.
  - rewrite importData_eq in H. case_match; simplify_eq/=; [|done].
    unfold persist_effect. simpl. by rewrite IH.
  - done.
Qed.

(** C1.  A candidate that has no [logs] property, or whose [dailyGoal] is
    not a number, makes [importData] return [false]; nothing is thrown and
    the store (state, flag, date and storage) is what it was. *)
Theorem importData_rejects (newState : Value) (s : Store) :
  own_property newState "logs" = None
  ∨ (∀ n, own_property newState "dailyGoal" ≠ Some (VNum n)) →
  importData newState s = Ok (false, s).
Proof.
  intros H. rewrite importData_eq.
  destruct H as [-> | H].
  - simpl. by rewrite andb_false_r.
  - destruct (own_property newState "dailyGoal") as [[| | |n| | | |]|];
      simpl; rewrite ?andb_false_r; try done.
    by destruct (H n).
Qed.

Lemma importData_rejects_witness :
  importData (obj [("dailyGoal", num 1500)]) Sample.one_apple = Ok (false, Sample.one_apple)
  ∧ importData (obj [("logs", obj []); ("dailyGoal", VStr "1500")]) Sample.one_apple
    = Ok (false, Sample.one_apple).
Proof.
  split.
  - apply importData_rejects. left. reflexivity.
  - apply importData_rejects. right. intros n. vm_compute. discriminate.
Defined.

(** C2.  A candidate object that holds a [logs] mapping and a numeric
    [dailyGoal] makes [importData] return [true]; the state is then the
    candidate itself, so every property read of the state ([chatHistory]
    and [userProfile] among them) gives what the candidate has, whatever
    the prior state had; and the persistence effect hands the candidate to
    [localStorage.setItem]. *)
Theorem importData_replaces
    (props logs : gmap string Value) (n : Number) (s : Store) :
  reachable s →
  props !! "logs" = Some (VObj logs) →
  props !! "dailyGoal" = Some (VNum n) →
  ∃ s',
    importData (VObj props) s = Ok (true, s')
    ∧ appState s' = VObj props
    ∧ (∀ k, get (appState s') k = get (VObj props) k)
    ∧ get (appState s') "chatHistory" = get (VObj props) "chatHistory"
    ∧ get (appState s') "userProfile" = get (VObj props) "userProfile"
    ∧ persisted s' = VObj props :: persisted s.
Proof.
  intros Hs Hlogs Hgoal. apply reachable_isInitialized in Hs.
  rewrite importData_eq. simpl. rewrite Hlogs, Hgoal. simpl.
  eexists. split; [reflexivity|].
  unfold persist_effect. simpl. rewrite Hs. simpl. by repeat split.
Qed.

Lemma importData_replaces_witness :
  ∃ s',
    importData Sample.backup Sample.fresh = Ok (true, s')
    ∧ appState s' = Sample.backup
    ∧ (∀ k, get (appState s') k = get Sample.backup k)
    ∧ get (appState s') "chatHistory" = get Sample.backup "chatHistory"
    ∧ get (appState s') "userProfile" = get Sample.backup "userProfile"
    ∧ persisted s' = Sample.backup :: persisted Sample.fresh.
Proof.
  apply (importData_replaces _ ∅ (number_of_Z 1500)).
  - apply reach_mount.
  - reflexivity.
  - reflexivity.
Defined.

(** C10.  [importData] returns [true] exactly when the candidate is
    truthy, its [logs] is truthy and its [dailyGoal] is a number, and it
    then installs the candidate as it is.  Nothing else is looked at: a
    candidate whose [logs] is a non-empty string, and one whose
    [dailyGoal] is [NaN], are both installed. *)
Theorem importData_accepts_exactly :
  (∀ newState s,
     (∃ s', importData newState s = Ok (true, s'))
     ↔ truthy newState = true
       ∧ ∃ logs dailyGoal,
           get newState "logs" = Ok logs ∧ truthy logs = true
           ∧ get newState "dailyGoal" = Ok dailyGoal
           ∧ typeof_is_number dailyGoal = true)
  ∧ (∀ newState s s',
       importData newState s = Ok (true, s') → appState s' = newState)
  ∧ (∀ s, ∃ s',
       importData (obj [("logs", VStr "x"); ("dailyGoal", num 2000)]) s = Ok (true, s')
       ∧ appState s' = obj [("logs", VStr "x"); ("dailyGoal", num 2000)])
  ∧ (∀ s, ∃ s',
       importData (obj [("logs", obj []); ("dailyGoal", VNum NaN)]) s = Ok (true, s')
       ∧ appState s' = obj [("logs", obj []); ("dailyGoal", VNum NaN)]).
Proof.
  assert (Hinstall : ∀ newState s, appState (setAppState (Replace newState) s) = newState).
  { intros newState s. simpl. unfold persist_effect. simpl. by destruct (isInitialized s). }
  split; [|split; [|split]].
  - intros newState s. rewrite importData_eq. split.
    + intros [s' H]. case_match eqn:Hc; [|discriminate H].
      apply andb_true_iff in Hc as [Hc Hgoal]. apply andb_true_iff in Hc as [Hv Hlogs].
      split; [done|]. eexists _, _.
      rewrite !(get_fixed_name _ _ Hv) by done. by repeat split.
    + intros (Hv & logs & dailyGoal & Hl & Hlogs & Hd & Hgoal).
      rewrite (get_fixed_name _ _ Hv) in Hl by done.
      rewrite (get_fixed_name _ _ Hv) in Hd by done. simplify_eq.
      rewrite Hv, Hlogs, Hgoal. simpl. by eexists.
  - intros newState s s'. rewrite importData_eq.
    case_match eqn:Hc; intros Himport; simplify_eq.
    apply Hinstall.
  - intros s. rewrite importData_eq. eexists. split; [reflexivity | apply Hinstall].
  - intros s. rewrite importData_eq. eexists. split; [reflexivity | apply Hinstall].
Qed.

(** ** The log operations on a typed state *)

Lemma bind_Ok {A B : Type} (a : A) (f : A → Result B) : Ok a ≫= f = f a.
Proof. reflexivity. Qed.

Lemma typed_logs_inv (state : Value) :
  has_typed_logs state = true →
  ∃ props logs,
    state = VObj props ∧ props !! "logs" = Some (VObj logs)
    ∧ ∀ d log, logs !! d = Some log → is_DailyLog log = true.
Proof.
  unfold has_typed_logs. intros H.
  destruct state as [| | | | | |props|]; try discriminate H.
  destruct (props !! "logs") as [[| | | | | |logs|]|] eqn:Hlogs; try discriminate H.
  apply bool_decide_eq_true in H. exists props, logs. repeat split; [exact Hlogs | exact H].
Qed.

Lemma DailyLog_inv (log : Value) :
  is_DailyLog log = true →
  ∃ props food exercise,
    log = VObj props
    ∧ props !! "food" = Some (VArr food) ∧ props !! "exercise" = Some (VArr exercise)
    ∧ forallb is_entry food = true ∧ forallb is_entry exercise = true.
Proof.
  unfold is_DailyLog. intros H.
  destruct log as [| | | | | |props|]; try discriminate H.
  destruct (props !! "food") as [[| | | | |food| |]|] eqn:Hf; try discriminate H.
  destruct (props !! "exercise") as [[| | | | |exercise| |]|] eqn:He; try discriminate H.
  apply andb_true_iff in H as [? ?]. by exists props, food, exercise.
Qed.

(** The log the operations work on: the stored one, or the empty one. *)
Lemma current_log (logs : gmap string Value) (d : string) :
  (∀ d log, logs !! d = Some log → is_DailyLog log = true) →
  ∃ props food exercise,
    or_else (default VUndefined (logs !! d)) emptyLog = VObj props
    ∧ props !! "food" = Some (VArr food) ∧ props !! "exercise" = Some (VArr exercise)
    ∧ forallb is_entry food = true ∧ forallb is_entry exercise = true
    ∧ (logs !! d = None ∨ logs !! d = Some (VObj props)).
Proof.
  intros Htyped. destruct (logs !! d) as [log|] eqn:Hd.
  - destruct (DailyLog_inv log (Htyped _ _ Hd)) as (props & food & exercise & -> & ? & ? & ? & ?).
    exists props, food, exercise. simpl. by repeat split; try right.
  - eexists _, [], []. simpl. unfold or_else, emptyLog, obj. simpl.
    repeat split; try reflexivity. by left.
Qed.

Section TypedState.

Variables (s : Store) (props logs : gmap string Value).
Hypothesis Hstate : appState s = VObj props.
Hypothesis Hlogs : props !! "logs" = Some (VObj logs).
Hypothesis Hdate : is_date_string (dateString s) = true.

(** The store once the updater has put [newLog] under the active date. *)
Local Abbreviation put newLog :=
  (setAppState
     (Replace (VObj (<["logs" := VObj (<[dateString s := newLog]> logs)]> props))) s).

Lemma getLogForDate_eq (d : string) :
  is_date_string d = true →
  getLogForDate d s = Ok (or_else (default VUndefined (logs !! d)) emptyLog).
Proof.
  intros Hd. unfold getLogForDate.
  rewrite Hstate. simpl. rewrite Hlogs. simpl.
  by rewrite (date_string_not_inherited _ Hd).
Qed.

Lemma addFood_eq (log : gmap string Value) (food : list Value) (entry : Value) (now : Z) :
  or_else (default VUndefined (logs !! dateString s)) emptyLog = VObj log →
  log !! "food" = Some (VArr food) →
  addFood entry now s = Ok (put (VObj (<["food" := VArr (food ++ [stamped entry now])]> log))).
Proof.
  intros Hlog Hfood. unfold addFood, updateState.
  rewrite Hstate. simpl. rewrite Hlogs. simpl.
  rewrite (date_string_not_inherited _ Hdate), Hlog. simpl. by rewrite Hfood.
Qed.

Lemma addExercise_eq (log : gmap string Value) (exercise : list Value) (entry : Value) (now : Z) :
  or_else (default VUndefined (logs !! dateString s)) emptyLog = VObj log →
  log !! "exercise" = Some (VArr exercise) →
  addExercise entry now s
  = Ok (put (VObj (<["exercise" := VArr (exercise ++ [stamped entry now])]> log))).
Proof.
  intros Hlog Hex. unfold addExercise, updateState.
  rewrite Hstate. simpl. rewrite Hlogs. simpl.
  rewrite (date_string_not_inherited _ Hdate), Hlog. simpl. by rewrite Hex.
Qed.

Lemma removeFood_absent (foodId : string) :
  logs !! dateString s = None → removeFood foodId s = Ok s.
Proof.
  intros Hnone. unfold removeFood, updateState.
  rewrite Hstate. simpl. rewrite Hlogs. simpl.
  by rewrite (date_string_not_inherited _ Hdate), Hnone.
Qed.

Lemma removeExercise_absent (exerciseId : string) :
  logs !! dateString s = None → removeExercise exerciseId s = Ok s.
Proof.
  intros Hnone. unfold removeExercise, updateState.
  rewrite Hstate. simpl. rewrite Hlogs. simpl.
  by rewrite (date_string_not_inherited _ Hdate), Hnone.
Qed.

Lemma removeFood_eq (log : gmap string Value) (food : list Value) (foodId : string) :
  logs !! dateString s = Some (VObj log) →
  log !! "food" = Some (VArr food) →
  forallb is_entry food = true →
  removeFood foodId s
  = Ok (put (VObj (<["food" := VArr (List.filter (λ e, negb (has_id foodId e)) food)]> log))).
Proof.
  intros Hlog Hfood Hentries. unfold removeFood, updateState.
  rewrite Hstate, (get_own _ _ _ Hlogs), bind_Ok, (get_date _ _ Hdate), bind_Ok, Hlog.
  cbn [default from_option id truthy negb]. rewrite (get_own _ _ _ Hfood), bind_Ok. unfold filter.
  by rewrite (filterM_entries _ _ Hentries).
Qed.

Lemma removeExercise_eq (log : gmap string Value) (exercise : list Value) (exerciseId : string) :
  logs !! dateString s = Some (VObj log) →
  log !! "exercise" = Some (VArr exercise) →
  forallb is_entry exercise = true →
  removeExercise exerciseId s
  = Ok (put (VObj (<["exercise" :=
                     VArr (List.filter (λ e, negb (has_id exerciseId e)) exercise)]> log))).
Proof.
  intros Hlog Hex Hentries. unfold removeExercise, updateState.
  rewrite Hstate, (get_own _ _ _ Hlogs), bind_Ok, (get_date _ _ Hdate), bind_Ok, Hlog.
  cbn [default from_option id truthy negb]. rewrite (get_own _ _ _ Hex), bind_Ok. unfold filter.
  by rewrite (filterM_entries _ _ Hentries).
Qed.

(** Reading the store back after the updater has put [newLog]. *)
Lemma put_appState (newLog : Value) :
  appState (put newLog)
  = VObj (<["logs" := VObj (<[dateString s := newLog]> logs)]> props).
Proof. simpl. unfold persist_effect. simpl. by destruct (isInitialized s). Qed.

Lemma put_dateString (newLog : Value) : dateString (put newLog) = dateString s.
Proof. simpl. unfold persist_effect. simpl. by destruct (isInitialized s). Qed.

(** Putting back the log that is stored changes nothing in the state. *)
Lemma put_same (log : Value) :
  logs !! dateString s = Some log → appState (put log) = appState s.
Proof.
  intros Hlog. rewrite put_appState, Hstate.
  by rewrite (insert_id logs _ _ Hlog), (insert_id props _ _ Hlogs).
Qed.

Lemma getLogForDate_put (newLog : Value) :
  getLogForDate (dateString s) (put newLog) = Ok (or_else newLog emptyLog).
Proof.
  unfold getLogForDate. rewrite put_appState.
  rewrite (get_own _ "logs" _ (lookup_insert_eq _ _ _)), bind_Ok.
  by rewrite (get_date _ _ Hdate), bind_Ok, lookup_insert_eq.
Qed.

Lemma foodOn_put (log : gmap string Value) (food : Value) :
  log !! "food" = Some food →
  foodOn (dateString s) (put (VObj log)) = Ok food.
Proof.
  intros Hfood. unfold foodOn. rewrite getLogForDate_put, bind_Ok.
  by apply get_own.
Qed.

Lemma exerciseOn_put (log : gmap string Value) (exercise : Value) :
  log !! "exercise" = Some exercise →
  exerciseOn (dateString s) (put (VObj log)) = Ok exercise.
Proof.
  intros Hex. unfold exerciseOn. rewrite getLogForDate_put, bind_Ok.
  by apply get_own.
Qed.

End TypedState.

(** What a typed state shows for its active date. *)
Lemma typed_view (s : Store) :
  has_typed_logs (appState s) = true →
  is_date_string (dateString s) = true →
  ∃ props logs log food exercise,
    appState s = VObj props ∧ props !! "logs" = Some (VObj logs)
    ∧ or_else (default VUndefined (logs !! dateString s)) emptyLog = VObj log
    ∧ log !! "food" = Some (VArr food) ∧ log !! "exercise" = Some (VArr exercise)
    ∧ forallb is_entry food = true ∧ forallb is_entry exercise = true
    ∧ foodOn (dateString s) s = Ok (VArr food)
    ∧ exerciseOn (dateString s) s = Ok (VArr exercise)
    ∧ stored_log (dateString s) (appState s) = logs !! dateString s
    ∧ (logs !! dateString s = None ∨ logs !! dateString s = Some (VObj log)).
Proof.
  intros Htyped Hdate.
  destruct (typed_logs_inv _ Htyped) as (props & logs & Hstate & Hlogs & Hall).
  destruct (current_log logs (dateString s) Hall)
    as (log & food & exercise & Hlog & Hfood & Hex & Hfs & Hes & Hstored).
  exists props, logs, log, food, exercise.
  repeat split; try done.
  - unfold foodOn. rewrite (getLogForDate_eq s props logs Hstate Hlogs _ Hdate), Hlog, bind_Ok.
    by apply get_own.
  - unfold exerciseOn.
    rewrite (getLogForDate_eq s props logs Hstate Hlogs _ Hdate), Hlog, bind_Ok.
    by apply get_own.
  - unfold stored_log. rewrite Hstate. simpl. by rewrite Hlogs.
Qed.

(** C3.  On a state whose [logs] mapping has no entry for the date string
    [date], [getLogForDate(date)] returns [{food: [], exercise: []}]: an
    object, neither [null] nor [undefined], and nothing is thrown. *)
Theorem getLogForDate_missing_date
    (s : Store) (props logs : gmap string Value) (date : string) :
  appState s = VObj props →
  props !! "logs" = Some (VObj logs) →
  is_date_string date = true →
  logs !! date = None →
  getLogForDate date s = Ok (obj [("food", VArr []); ("exercise", VArr [])]).
Proof.
  intros Hstate Hlogs Hdate Hnone.
  by rewrite (getLogForDate_eq s props logs Hstate Hlogs _ Hdate), Hnone.
Qed.

Lemma getLogForDate_missing_date_witness :
  getLogForDate "2024-02-29" Sample.one_apple
  = Ok (obj [("food", VArr []); ("exercise", VArr [])]).
Proof.
  eapply getLogForDate_missing_date; reflexivity.
Defined.

(** C8.  On a typed state, [removeFood(foodId)] leaves in the food list
    of the active date exactly the entries whose id is not [foodId], in
    their order, and does not touch the exercise list.  When the [logs]
    mapping holds no log for the active date the store is returned as it
    is; when no food entry of that log has the id, the state after the
    call equals the state before.  [removeExercise] does the same on the
    exercise list. *)
Theorem removeFood_removeExercise_spec
    (s : Store) (i : string) (food exercise : list Value) :
  has_typed_logs (appState s) = true →
  is_date_string (dateString s) = true →
  foodOn (dateString s) s = Ok (VArr food) →
  exerciseOn (dateString s) s = Ok (VArr exercise) →
  (∃ s',
     removeFood i s = Ok s'
     ∧ foodOn (dateString s) s' = Ok (VArr (List.filter (λ e, negb (has_id i e)) food))
     ∧ exerciseOn (dateString s) s' = Ok (VArr exercise)
     ∧ (stored_log (dateString s) (appState s) = None → s' = s)
     ∧ (forallb (λ e, negb (has_id i e)) food = true → appState s' = appState s))
  ∧ (∃ s',
       removeExercise i s = Ok s'
       ∧ exerciseOn (dateString s) s'
         = Ok (VArr (List.filter (λ e, negb (has_id i e)) exercise))
       ∧ foodOn (dateString s) s' = Ok (VArr food)
       ∧ (stored_log (dateString s) (appState s) = None → s' = s)
       ∧ (forallb (λ e, negb (has_id i e)) exercise = true → appState s' = appState s)).
Proof.
  intros Htyped Hdate Hfood Hexercise.
  destruct (typed_view s Htyped Hdate)
    as (props & logs & log & fs & es & Hstate & Hlogs & Hlog & Hf & He & Hfs & Hes
        & Hfood' & Hexercise' & Hstored & Hcase).
  rewrite Hfood' in Hfood. rewrite Hexercise' in Hexercise. simplify_eq.
  rewrite Hstored. destruct Hcase as [Hnone | Hsome].
  - (* no log under the active date: the updater returns [prev] *)
    rewrite Hnone in Hlog. injection Hlog as <-.
    injection Hf as <-. injection He as <-.
    split; exists s; simpl.
    + by rewrite (removeFood_absent s props logs Hstate Hlogs Hdate _ Hnone).
    + by rewrite (removeExercise_absent s props logs Hstate Hlogs Hdate _ Hnone).
  - split; eexists.
    + rewrite (removeFood_eq s props logs Hstate Hlogs Hdate _ _ _ Hsome Hf Hfs).
      split; [reflexivity|]. split; [|split; [|split]].
      * apply (foodOn_put s props logs Hdate). apply lookup_insert_eq.
      * apply (exerciseOn_put s props logs Hdate). by rewrite lookup_insert_ne.
      * by rewrite Hsome.
      * intros Hnomatch. rewrite (filter_none _ _ Hnomatch), (insert_id log _ _ Hf).
        by apply put_same.
    + rewrite (removeExercise_eq s props logs Hstate Hlogs Hdate _ _ _ Hsome He Hes).
      split; [reflexivity|]. split; [|split; [|split]].
      * apply (exerciseOn_put s props logs Hdate). apply lookup_insert_eq.
      * apply (foodOn_put s props logs Hdate). by rewrite lookup_insert_ne.
      * by rewrite Hsome.
      * intros Hnomatch. rewrite (filter_none _ _ Hnomatch), (insert_id log _ _ He).
        by apply put_same.
Qed.

Lemma removeFood_removeExercise_spec_witness :
  (∃ s',
     removeFood "5" Sample.one_apple = Ok s'
     ∧ foodOn "2024-01-01" s'
       = Ok (VArr (List.filter (λ e, negb (has_id "5" e)) [Sample.with_id "5" Sample.apple]))
     ∧ exerciseOn "2024-01-01" s' = Ok (VArr [])
     ∧ (stored_log "2024-01-01" (appState Sample.one_apple) = None → s' = Sample.one_apple)
     ∧ (forallb (λ e, negb (has_id "5" e)) [Sample.with_id "5" Sample.apple] = true →
        appState s' = appState Sample.one_apple))
  ∧ (∃ s',
       removeExercise "5" Sample.one_apple = Ok s'
       ∧ exerciseOn "2024-01-01" s' = Ok (VArr (List.filter (λ e, negb (has_id "5" e)) []))
       ∧ foodOn "2024-01-01" s' = Ok (VArr [Sample.with_id "5" Sample.apple])
       ∧ (stored_log "2024-01-01" (appState Sample.one_apple) = None → s' = Sample.one_apple)
       ∧ (forallb (λ e, negb (has_id "5" e)) [] = true →
          appState s' = appState Sample.one_apple)).
Proof.
  apply (removeFood_removeExercise_spec Sample.one_apple "5"
           [Sample.with_id "5" Sample.apple] []); reflexivity.
Defined.

(** The state [addFood] and [addExercise] leave is typed again, with the
    same active date. *)
Lemma stamped_is_entry (entry : Value) (now : Z) : is_entry (stamped entry now) = true.
Proof. unfold is_entry, stamped, entry_id. by rewrite lookup_insert_eq. Qed.

Lemma stamped_id (entry : Value) (now : Z) :
  entry_id (stamped entry now) = Some (toString now)
  ∧ get (stamped entry now) "id" = Ok (VStr (toString now)).
Proof.
  unfold stamped, entry_id. split; [by rewrite lookup_insert_eq|].
  apply get_own, lookup_insert_eq.
Qed.

(** [removeFood] on a store that holds a typed log under the active date. *)
Lemma removeFood_stored
    (s : Store) (props logs log : gmap string Value) (food : list Value) (i : string) :
  appState s = VObj props →
  props !! "logs" = Some (VObj logs) →
  is_date_string (dateString s) = true →
  logs !! dateString s = Some (VObj log) →
  log !! "food" = Some (VArr food) →
  forallb is_entry food = true →
  ∃ s',
    removeFood i s = Ok s'
    ∧ foodOn (dateString s) s' = Ok (VArr (List.filter (λ e, negb (has_id i e)) food)).
Proof.
  intros Hstate Hlogs Hdate Hlog Hfood Hentries. eexists. split.
  - exact (removeFood_eq s props logs Hstate Hlogs Hdate _ _ i Hlog Hfood Hentries).
  - apply (foodOn_put s props logs Hdate), lookup_insert_eq.
Qed.

(** C4, as the code has it.  On a typed state in whose food list for the
    active date no entry has the id that [addFood] is about to assign (the
    decimal string of [Date.now()]), [addFood] appends the entry under that
    id, and [removeFood] with that id then gives back the food list there
    was before [addFood]. *)
Theorem addFood_removeFood_roundtrip
    (s : Store) (entry : Value) (now : Z) (food : list Value) :
  has_typed_logs (appState s) = true →
  is_date_string (dateString s) = true →
  foodOn (dateString s) s = Ok (VArr food) →
  forallb (λ e, negb (has_id (toString now) e)) food = true →
  ∃ s1 s2,
    addFood entry now s = Ok s1
    ∧ foodOn (dateString s) s1 = Ok (VArr (food ++ [stamped entry now]))
    ∧ entry_id (stamped entry now) = Some (toString now)
    ∧ removeFood (toString now) s1 = Ok s2
    ∧ foodOn (dateString s) s2 = Ok (VArr food).
Proof.
  intros Htyped Hdate Hfood Hfresh.
  destruct (typed_view s Htyped Hdate)
    as (props & logs & log & fs & es & Hstate & Hlogs & Hlog & Hf & He & Hfs & Hes
        & Hfood' & _ & _ & _).
  rewrite Hfood' in Hfood. simplify_eq.
  pose proof (addFood_eq s props logs Hstate Hlogs Hdate _ _ entry now Hlog Hf) as Hadd.
  pose proof (put_appState s props logs
                (VObj (<["food" := VArr (food ++ [stamped entry now])]> log))) as Hstate1.
  pose proof (put_dateString s props logs
                (VObj (<["food" := VArr (food ++ [stamped entry now])]> log))) as Hdate1.
  pose proof (foodOn_put s props logs Hdate
                (<["food" := VArr (food ++ [stamped entry now])]> log) _
                (lookup_insert_eq _ _ _)) as Hfood1.
  revert Hadd Hstate1 Hdate1 Hfood1. generalize (setAppState
    (Replace (VObj (<["logs" := VObj (<[dateString s :=
       VObj (<["food" := VArr (food ++ [stamped entry now])]> log)]> logs)]> props))) s).
  intros s1 Hadd Hstate1 Hdate1 Hfood1.
  assert (Hentries : forallb is_entry (food ++ [stamped entry now]) = true).
  { rewrite forallb_app, Hfs. simpl. by rewrite stamped_is_entry. }
  assert (∃ s2, removeFood (toString now) s1 = Ok s2
                ∧ foodOn (dateString s1) s2
                  = Ok (VArr (List.filter (λ e, negb (has_id (toString now) e))
                                (food ++ [stamped entry now]))))
    as (s2 & Hremove & Hfood2).
  { eapply removeFood_stored;
      [exact Hstate1 | apply lookup_insert_eq | by rewrite Hdate1
      | by rewrite Hdate1, lookup_insert_eq | apply lookup_insert_eq | exact Hentries]. }
  exists s1, s2. repeat split; try done.
  - apply stamped_id.
  - rewrite <- Hdate1, Hfood2. unfold stamped.
    by rewrite filter_app_new, (filter_none _ _ Hfresh).
Qed.

Lemma addFood_removeFood_roundtrip_witness :
  ∃ s1 s2,
    addFood Sample.apple 1704067200000 Sample.one_apple = Ok s1
    ∧ foodOn "2024-01-01" s1
      = Ok (VArr ([Sample.with_id "5" Sample.apple] ++ [stamped Sample.apple 1704067200000]))
    ∧ entry_id (stamped Sample.apple 1704067200000) = Some (toString 1704067200000)
    ∧ removeFood (toString 1704067200000) s1 = Ok s2
    ∧ foodOn "2024-01-01" s2 = Ok (VArr [Sample.with_id "5" Sample.apple]).
Proof.
  apply (addFood_removeFood_roundtrip Sample.one_apple Sample.apple 1704067200000
           [Sample.with_id "5" Sample.apple]); reflexivity.
Defined.

(** C4 as stated fails.  Two foods are added within one millisecond
    ([Date.now()] is 1704067200000 in both calls), so both get the same
    id; [removeFood] with the id assigned to the second drops the first
    as well, and the food list there was before the second [addFood] is
    not restored. *)
Lemma addFood_removeFood_collision :
  ∃ s0 s1 s2,
    addFood Sample.apple 1704067200000 Sample.fresh = Ok s0
    ∧ has_typed_logs (appState s0) = true
    ∧ foodOn "2024-01-01" s0 = Ok (VArr [stamped Sample.apple 1704067200000])
    ∧ addFood Sample.banana 1704067200000 s0 = Ok s1
    ∧ foodOn "2024-01-01" s1
      = Ok (VArr [stamped Sample.apple 1704067200000;
                  stamped Sample.banana 1704067200000])
    ∧ removeFood (toString 1704067200000) s1 = Ok s2
    ∧ foodOn "2024-01-01" s2 = Ok (VArr [])
    ∧ foodOn "2024-01-01" s2 ≠ foodOn "2024-01-01" s0.
Proof.
  eexists _, _, _. repeat (split; [reflexivity|]).
  intros Hsame. vm_compute in Hsame. discriminate Hsame.
Qed.

(** [addExercise] on a store whose current log for the active date is
    [log]. *)
Lemma addExercise_step
    (s : Store) (props logs log : gmap string Value) (exercise : list Value)
    (entry : Value) (now : Z) :
  appState s = VObj props →
  props !! "logs" = Some (VObj logs) →
  is_date_string (dateString s) = true →
  or_else (default VUndefined (logs !! dateString s)) emptyLog = VObj log →
  log !! "exercise" = Some (VArr exercise) →
  ∃ s',
    addExercise entry now s = Ok s'
    ∧ exerciseOn (dateString s) s' = Ok (VArr (exercise ++ [stamped entry now]))
    ∧ dateString s' = dateString s
    ∧ appState s'
      = VObj (<["logs" := VObj (<[dateString s :=
                 VObj (<["exercise" := VArr (exercise ++ [stamped entry now])]> log)]> logs)]>
              props).
Proof.
  intros Hstate Hlogs Hdate Hlog Hex. eexists. split; [|split; [|split]].
  - exact (addExercise_eq s props logs Hstate Hlogs Hdate _ _ entry now Hlog Hex).
  - apply (exerciseOn_put s props logs Hdate), lookup_insert_eq.
  - apply put_dateString.
  - apply put_appState.
Qed.

(** C5, as the code has it.  Two [addExercise] calls in a row on a typed
    state leave, for the active date, the exercise list there was followed
    by the first call's entry and then the second call's.  Each entry's id
    is the decimal string of what [Date.now()] returned in its call, so the
    two ids differ exactly when the two clock readings differ. *)
Theorem addExercise_twice
    (s : Store) (e1 e2 : Value) (t1 t2 : Z) (exercise : list Value) :
  has_typed_logs (appState s) = true →
  is_date_string (dateString s) = true →
  exerciseOn (dateString s) s = Ok (VArr exercise) →
  ∃ s1 s2,
    addExercise e1 t1 s = Ok s1
    ∧ addExercise e2 t2 s1 = Ok s2
    ∧ exerciseOn (dateString s) s2
      = Ok (VArr (exercise ++ [stamped e1 t1; stamped e2 t2]))
    ∧ entry_id (stamped e1 t1) = Some (toString t1)
    ∧ entry_id (stamped e2 t2) = Some (toString t2)
    ∧ (entry_id (stamped e1 t1) ≠ entry_id (stamped e2 t2) ↔ t1 ≠ t2).
Proof.
  intros Htyped Hdate Hexercise.
  destruct (typed_view s Htyped Hdate)
    as (props & logs & log & fs & es & Hstate & Hlogs & Hlog & Hf & He & Hfs & Hes
        & _ & Hexercise' & _ & _).
  rewrite Hexercise' in Hexercise. simplify_eq.
  destruct (addExercise_step s props logs log exercise e1 t1 Hstate Hlogs Hdate Hlog He)
    as (s1 & Hadd1 & _ & Hdate1 & Hstate1).
  assert (∃ s2, addExercise e2 t2 s1 = Ok s2
                ∧ exerciseOn (dateString s1) s2
                  = Ok (VArr ((exercise ++ [stamped e1 t1]) ++ [stamped e2 t2])))
    as (s2 & Hadd2 & Hexercise2).
  { edestruct (addExercise_step s1) as (s2 & Hadd2 & Hexercise2 & _);
      [exact Hstate1 | apply lookup_insert_eq | by rewrite Hdate1
      | by rewrite Hdate1, lookup_insert_eq | apply lookup_insert_eq |].
    exists s2. split; [exact Hadd2 | exact Hexercise2]. }
  exists s1, s2. rewrite Hdate1, <- app_assoc in Hexercise2.
  destruct (stamped_id e1 t1) as [Hid1 _]. destruct (stamped_id e2 t2) as [Hid2 _].
  repeat split; try done.
  - rewrite Hid1, Hid2. intros Hne ->. by apply Hne.
  - rewrite Hid1, Hid2. intros Hne Heq. injection Heq as Heq.
    by apply Hne, toString_inj.
Qed.

Lemma addExercise_twice_witness :
  ∃ s1 s2,
    addExercise Sample.run 1704067200000 Sample.one_apple = Ok s1
    ∧ addExercise Sample.swim 1704067200001 s1 = Ok s2
    ∧ exerciseOn "2024-01-01" s2
      = Ok (VArr ([] ++ [stamped Sample.run 1704067200000;
                         stamped Sample.swim 1704067200001]))
    ∧ entry_id (stamped Sample.run 1704067200000) = Some (toString 1704067200000)
    ∧ entry_id (stamped Sample.swim 1704067200001) = Some (toString 1704067200001)
    ∧ (entry_id (stamped Sample.run 1704067200000)
       ≠ entry_id (stamped Sample.swim 1704067200001)
       ↔ 1704067200000%Z ≠ 1704067200001%Z).
Proof.
  apply (addExercise_twice Sample.one_apple Sample.run Sample.swim
           1704067200000 1704067200001 []); reflexivity.
Defined.

(** C5 as stated fails.  Two exercises are added within one millisecond
    ([Date.now()] is 1704067200000 in both calls): the entries are in call
    order, and they have the same id. *)
Lemma addExercise_same_tick_same_id :
  has_typed_logs (appState Sample.fresh) = true
  ∧ ∃ s1 s2 first second,
      addExercise Sample.run 1704067200000 Sample.fresh = Ok s1
      ∧ addExercise Sample.swim 1704067200000 s1 = Ok s2
      ∧ exerciseOn "2024-01-01" s2 = Ok (VArr [first; second])
      ∧ get first "name" = Ok (VStr "Run")
      ∧ get second "name" = Ok (VStr "Swim")
      ∧ get first "id" = Ok (VStr "1704067200000")
      ∧ get second "id" = Ok (VStr "1704067200000")
      ∧ ¬ (get first "id" ≠ get second "id").
Proof.
  split; [reflexivity|].
  eexists _, _, _, _. repeat (split; [reflexivity|]).
  intros Hdistinct. by apply Hdistinct.
Qed.

(** ** [clearChatHistory] *)

(** C9.  On every state, [clearChatHistory] twice leaves the state that
    [clearChatHistory] once leaves: the prior state's own properties with
    [chatHistory] set to the empty array, every other property as it
    was. *)
Theorem clearChatHistory_idempotent (s : Store) :
  ∃ s1 s2,
    clearChatHistory s = Ok s1
    ∧ clearChatHistory s1 = Ok s2
    ∧ appState s2 = appState s1
    ∧ get (appState s1) "chatHistory" = Ok (VArr [])
    ∧ (∀ k, k ≠ "chatHistory" →
         own_enumerable (appState s1) !! k = own_enumerable (appState s) !! k).
Proof.
  assert (Hstate : ∀ s0 state, appState (setAppState (Replace state) s0) = state).
  { intros s0 state. simpl. unfold persist_effect. simpl. by destruct (isInitialized s0). }
  eexists _, _. split; [reflexivity|]. split; [reflexivity|].
  rewrite !Hstate. split; [|split].
  - cbn [own_enumerable]. by rewrite insert_insert_eq.
  - apply get_own, lookup_insert_eq.
  - intros k Hk. cbn [own_enumerable]. by rewrite lookup_insert_ne.
Qed.

(** ** Mounting: the load effect *)

Section StartupFacts.

Variable navigator_language : string.
Variable JSON_parse : string → Result Value.

Local Abbreviation initial := (initialAppState navigator_language).
Local Abbreviation loaded item := (load navigator_language JSON_parse item).

Lemma mounted_state_eq (item : Result (option string)) (date : string) :
  mounted_state navigator_language JSON_parse item date = loaded item.
Proof. reflexivity. Qed.

(** What the load effect installs when the stored blob parsed to a value
    that is neither [null] nor [undefined]. *)
Lemma load_parsed (blob : string) (parsed : Value) :
  blob ≠ "" →
  JSON_parse blob = Ok parsed →
  parsed ≠ VNull → parsed ≠ VUndefined →
  loaded (Ok (Some blob))
  = VObj (<["macronutrientGoals" :=
             or_else (default VUndefined (own_property parsed "macronutrientGoals"))
                     initial_macronutrientGoals]>
         (<["chatHistory" :=
             or_else (default VUndefined (own_property parsed "chatHistory")) (VArr [])]>
         (<["userProfile" :=
             or_else (default VUndefined (own_property parsed "userProfile"))
                     initial_userProfile]>
         (<["language" :=
             or_else (default VUndefined (own_property parsed "language"))
                     (VStr (getInitialLanguage navigator_language))]>
         (own_enumerable parsed ∪ own_enumerable initial))))).
Proof.
  intros Hblob Hparse Hnull Hundef. unfold load, load_try.
  rewrite bind_Ok. cbn [truthy].
  destruct (String.eqb_spec blob "") as [|_]; [done|]. cbn [negb].
  rewrite Hparse, bind_Ok.
  assert (Hget : ∀ k, inherited k = VUndefined →
                      get parsed k = Ok (default VUndefined (own_property parsed k))).
  { intros k Hk. unfold get. rewrite Hk. by destruct parsed. }
  by rewrite !Hget, !bind_Ok.
Qed.

Lemma load_fallback (blob : string) (parsed : Value) :
  JSON_parse blob = Ok parsed →
  blob = "" ∨ parsed = VNull ∨ parsed = VUndefined →
  loaded (Ok (Some blob)) = initial.
Proof.
  intros Hparse Hcase. unfold load, load_try. rewrite bind_Ok. cbn [truthy].
  destruct (String.eqb_spec blob "") as [|Hblob]; cbn [negb]; [done|].
  rewrite Hparse, bind_Ok. by destruct Hcase as [? | [-> | ->]].
Qed.

(** Nothing stored, a storage that throws, or a blob that does not parse:
    the initial state. *)
Lemma load_initial (item : Result (option string)) :
  item = Ok None
  ∨ (∃ e, item = Throw e)
  ∨ (∃ blob e, item = Ok (Some blob) ∧ JSON_parse blob = Throw e) →
  loaded item = initial.
Proof.
  intros [-> | [[e ->] | (blob & e & -> & Hparse)]]; try reflexivity.
  unfold load, load_try. rewrite bind_Ok. cbn [truthy].
  destruct (String.eqb_spec blob "") as [|Hblob]; cbn [negb]; [done|].
  by rewrite Hparse.
Qed.

End StartupFacts.

(** C6.  When the stored blob parses, a parsed value without
    [macronutrientGoals] gives a state whose [macronutrientGoals] is
    [{protein: 150, carbs: 250, fat: 60}].  When it parses to an object,
    each of [userProfile], [chatHistory] and [macronutrientGoals] that the
    object lacks gets its default, whatever else is missing, and the rest
    is not rejected: every stored property outside [language] and those
    three, and every stored property whose value is truthy, is in the
    state as stored. *)
Theorem load_defaults_missing_nested
    (navigator_language : string) (JSON_parse : string → Result Value)
    (blob : string) (parsed : Value) (date : string) :
  blob ≠ "" →
  JSON_parse blob = Ok parsed →
  (own_property parsed "macronutrientGoals" = None →
   get (mounted_state navigator_language JSON_parse (Ok (Some blob)) date)
       "macronutrientGoals"
   = Ok (obj [("protein", num 150); ("carbs", num 250); ("fat", num 60)]))
  ∧ (∀ stored : gmap string Value,
       parsed = VObj stored →
       (stored !! "macronutrientGoals" = None →
        get (mounted_state navigator_language JSON_parse (Ok (Some blob)) date)
            "macronutrientGoals"
        = Ok initial_macronutrientGoals)
       ∧ (stored !! "userProfile" = None →
          get (mounted_state navigator_language JSON_parse (Ok (Some blob)) date)
              "userProfile"
          = Ok initial_userProfile)
       ∧ (stored !! "chatHistory" = None →
          get (mounted_state navigator_language JSON_parse (Ok (Some blob)) date)
              "chatHistory"
          = Ok (VArr []))
       ∧ (∀ k v, stored !! k = Some v →
            k ∉ ["language"; "userProfile"; "chatHistory"; "macronutrientGoals"]
            ∨ truthy v = true →
            get (mounted_state navigator_language JSON_parse (Ok (Some blob)) date) k
            = Ok v)).
Proof.
  intros Hblob Hparse. rewrite mounted_state_eq. split.
  - intros Hmissing.
    assert (Hcase : (parsed = VNull ∨ parsed = VUndefined)
                    ∨ (parsed ≠ VNull ∧ parsed ≠ VUndefined))
      by (destruct parsed; naive_solver).
    destruct Hcase as [Hnullish | [Hnull Hundef]].
    + rewrite (load_fallback _ _ _ _ Hparse) by by right. reflexivity.
    + rewrite (load_parsed _ _ _ _ Hblob Hparse Hnull Hundef).
      rewrite Hmissing. apply get_own, lookup_insert_eq.
  - intros stored ->.
    rewrite (load_parsed _ _ _ _ Hblob Hparse) by done. cbn [own_property own_enumerable].
    split; [|split; [|split]].
    + intros ->. apply get_own, lookup_insert_eq.
    + intros ->. apply get_own. by rewrite lookup_insert_ne, lookup_insert_ne, lookup_insert_eq.
    + intros ->. apply get_own. by rewrite lookup_insert_ne, lookup_insert_eq.
    + intros k v Hk Hcase. apply get_own.
      destruct (decide (k = "macronutrientGoals")) as [-> | Hmg].
      { destruct Hcase as [Hout | Hv]; [set_solver|].
        by rewrite lookup_insert_eq, Hk; unfold or_else; simpl; rewrite Hv. }
      rewrite lookup_insert_ne by done.
      destruct (decide (k = "chatHistory")) as [-> | Hch].
      { destruct Hcase as [Hout | Hv]; [set_solver|].
        by rewrite lookup_insert_eq, Hk; unfold or_else; simpl; rewrite Hv. }
      rewrite lookup_insert_ne by done.
      destruct (decide (k = "userProfile")) as [-> | Hup].
      { destruct Hcase as [Hout | Hv]; [set_solver|].
        by rewrite lookup_insert_eq, Hk; unfold or_else; simpl; rewrite Hv. }
      rewrite lookup_insert_ne by done.
      destruct (decide (k = "language")) as [-> | Hlang].
      { destruct Hcase as [Hout | Hv]; [set_solver|].
        by rewrite lookup_insert_eq, Hk; unfold or_else; simpl; rewrite Hv. }
      rewrite lookup_insert_ne by done.
      by apply lookup_union_Some_l.
Qed.

Lemma load_defaults_missing_nested_witness :
  (own_property (obj [("dailyGoal", num 1800)]) "macronutrientGoals" = None →
   get (mounted_state "en-US" Sample.parse (Ok (Some Sample.goal_blob)) "2024-01-01")
       "macronutrientGoals"
   = Ok (obj [("protein", num 150); ("carbs", num 250); ("fat", num 60)]))
  ∧ (∀ stored : gmap string Value,
       obj [("dailyGoal", num 1800)] = VObj stored →
       (stored !! "macronutrientGoals" = None →
        get (mounted_state "en-US" Sample.parse (Ok (Some Sample.goal_blob)) "2024-01-01")
            "macronutrientGoals"
        = Ok initial_macronutrientGoals)
       ∧ (stored !! "userProfile" = None →
          get (mounted_state "en-US" Sample.parse (Ok (Some Sample.goal_blob)) "2024-01-01")
              "userProfile"
          = Ok initial_userProfile)
       ∧ (stored !! "chatHistory" = None →
          get (mounted_state "en-US" Sample.parse (Ok (Some Sample.goal_blob)) "2024-01-01")
              "chatHistory"
          = Ok (VArr []))
       ∧ (∀ k v, stored !! k = Some v →
            k ∉ ["language"; "userProfile"; "chatHistory"; "macronutrientGoals"]
            ∨ truthy v = true →
            get (mounted_state "en-US" Sample.parse (Ok (Some Sample.goal_blob)) "2024-01-01")
                k
            = Ok v)).
Proof.
  apply (load_defaults_missing_nested "en-US" Sample.parse Sample.goal_blob
           (obj [("dailyGoal", num 1800)]) "2024-01-01").
  - discriminate.
  - reflexivity.
Defined.

(** The stored goal of the sample blob survives the load, next to the
    defaulted [macronutrientGoals]. *)
Example load_keeps_stored_goal :
  get (mounted_state "en-US" Sample.parse (Ok (Some Sample.goal_blob)) "2024-01-01")
      "dailyGoal" = Ok (num 1800)
  ∧ get (mounted_state "en-US" Sample.parse (Ok (Some Sample.goal_blob)) "2024-01-01")
        "macronutrientGoals" = Ok initial_macronutrientGoals.
Proof. split; reflexivity. Qed.

(** ** The initial language *)

Lemma append_empty (s : string) : s +:+ "" = s.
Proof. induction s as [|c s IH]; [done | exact (f_equal (String c) IH)]. Qed.

Lemma toLowerCase_app (s t : string) :
  toLowerCase (s +:+ t) = toLowerCase s +:+ toLowerCase t.
Proof.
  induction s as [|c s IH]; [done | exact (f_equal (String (lower c)) IH)].
Qed.

(** Lower-casing works character by character: a cut of the result is a
    cut of the text. *)
Lemma toLowerCase_app_inv (s x y : string) :
  toLowerCase s = x +:+ y →
  ∃ s1 s2, s = s1 +:+ s2 ∧ toLowerCase s1 = x ∧ toLowerCase s2 = y.
Proof.
  revert s. induction x as [|a x IH]; intros s E.
  - by exists "", s.
  - change (String a x +:+ y) with (String a (x +:+ y)) in E.
    destruct s as [|c s]; [discriminate E|].
    cbn [toLowerCase] in E. injection E as Ea E.
    destruct (IH _ E) as (s1 & s2 & -> & E1 & E2).
    exists (String c s1), s2. cbn [toLowerCase]. by rewrite Ea, E1.
Qed.

(** A test that holds of the 256 character codes holds of every
    character. *)
Lemma ascii_enumerated (P : ascii → bool) :
  forallb (λ n, P (ascii_of_nat n)) (seq 0 256) = true → ∀ c, P c = true.
Proof.
  intros H c. rewrite forallb_forall in H.
  rewrite <- (ascii_nat_embedding c). apply H, in_seq.
  pose proof (nat_ascii_bounded c). lia.
Qed.

(** [toLowerCase] identifies exactly the capital and the small form of each
    letter: two characters have the same lower case just when they are the
    same letter in the table [letters], or the same character. *)
Lemma same_letter_lower (a b : ascii) :
  same_letter a b = Ascii.eqb (lower a) (lower b).
Proof.
  apply Bool.eqb_prop.
  apply (ascii_enumerated
           (λ b, Bool.eqb (same_letter a b) (Ascii.eqb (lower a) (lower b)))).
  apply (ascii_enumerated
           (λ a, forallb
                   (λ n, Bool.eqb (same_letter a (ascii_of_nat n))
                                  (Ascii.eqb (lower a) (lower (ascii_of_nat n))))
                   (seq 0 256))).
  vm_compute. reflexivity.
Qed.

Lemma same_text_lower (s t : string) :
  same_text s t = String.eqb (toLowerCase s) (toLowerCase t).
Proof.
  revert t. induction s as [|a s IH]; intros [|b t];
    cbn [same_text toLowerCase String.eqb]; try reflexivity.
  by rewrite same_letter_lower, IH.
Qed.

Lemma same_text_tag (tag written : string) :
  same_text tag written = true ↔ toLowerCase tag = toLowerCase written.
Proof. rewrite same_text_lower. apply String.eqb_eq. Qed.

(** The test of [getInitialLanguage], on the locale as the device gives
    it. *)
Lemma contains_tag_includes (locale : string) :
  contains_tag locale ↔
  includes (toLowerCase locale) "zh-tw" = true
  ∨ includes (toLowerCase locale) "zh-hk" = true.
Proof.
  unfold contains_tag. rewrite !includes_spec. split.
  - intros (before & tag & after & -> & H). rewrite !toLowerCase_app.
    destruct H as [H | H]; apply same_text_tag in H; [left | right];
      exists (toLowerCase before), (toLowerCase after); by rewrite H.
  - intros [(b & a & E) | (b & a & E)];
      apply toLowerCase_app_inv in E as (before & rest & -> & _ & E);
      apply toLowerCase_app_inv in E as (tag & after & -> & E & _);
      exists before, tag, after; (split; [done|]);
      [left | right]; by apply same_text_tag.
Qed.

Lemma getInitialLanguage_spec (locale : string) :
  (contains_tag locale → getInitialLanguage locale = "zh-TW")
  ∧ (¬ contains_tag locale → getInitialLanguage locale = "en").
Proof.
  rewrite contains_tag_includes. unfold getInitialLanguage.
  destruct (includes (toLowerCase locale) "zh-tw"),
    (includes (toLowerCase locale) "zh-hk"); simpl; split; try done.
  - intros H. destruct H. by left.
  - intros H. destruct H. by left.
  - intros H. destruct H. by right.
  - intros [H | H]; discriminate H.
Qed.

Lemma split_on_nonempty (sep : ascii) (s : string) : split_on sep s ≠ [].
Proof.
  destruct s as [|c r]; simpl; [done|].
  destruct (Ascii.eqb c sep); [done|]. by destruct (split_on sep r).
Qed.

Lemma split_on_one (sep : ascii) (s piece : string) :
  split_on sep s = [piece] → s = piece.
Proof.
  revert piece. induction s as [|c r IH]; intros piece; simpl.
  - by intros [= <-].
  - pose proof (split_on_nonempty sep r) as Hne.
    destruct (Ascii.eqb c sep).
    + intros [= _ E]. done.
    + destruct (split_on sep r) as [|p ps]; [done|].
      intros [= <- ->]. by rewrite (IH p).
Qed.

(** A locale of two subtags is the first, a hyphen, the second. *)
Lemma split_on_two (sep : ascii) (s first second : string) :
  split_on sep s = [first; second] → s = first +:+ String sep second.
Proof.
  revert first. induction s as [|c r IH]; intros first; simpl.
  - done.
  - pose proof (split_on_nonempty sep r) as Hne.
    destruct (Ascii.eqb c sep) eqn:Ec.
    + intros [= <- E]. apply Ascii.eqb_eq in Ec as ->.
      by rewrite (split_on_one _ _ _ E).
    + destruct (split_on sep r) as [|p ps]; [done|].
      intros [= <- ->]. simpl. by rewrite (IH p).
Qed.

(** On a locale made of a language and a region, the test finds every
    locale that indicates Traditional Chinese. *)
Lemma language_region_contains_tag (locale : string) :
  length (split_on "-" locale) = 2 →
  indicates_traditional_chinese locale = true → contains_tag locale.
Proof.
  unfold indicates_traditional_chinese, taiwan_or_hong_kong.
  destruct (split_on "-" locale) as [|language [|region [|? ?]]] eqn:E;
    try discriminate.
  intros _ H. apply split_on_two in E as ->.
  apply andb_true_iff in H as [Hzh H]. apply orb_true_iff in H.
  apply same_text_tag in Hzh.
  exists "", (language +:+ String "-" region), "".
  split; [by rewrite append_empty|].
  destruct H as [H | H]; apply same_text_tag in H; [left | right];
    apply same_text_tag; rewrite toLowerCase_app; cbn [toLowerCase];
    by rewrite Hzh, H.
Qed.

(** C7, as the code has it.  With nothing stored, the language of the
    mounted state comes from the text of the device locale: ["zh-TW"]
    exactly when the locale contains [zh-TW] or [zh-HK], in any letter
    case, and ["en"] for every other locale.  So a locale made of the
    language [zh] and the region [TW] or [HK] yields ["zh-TW"], as do
    ["zh-TW"], ["zh-HK"] and ["ZH-tw"]; ["en-US"] yields ["en"], and so
    does ["zh-Hant-TW"], which names the traditional script and Taiwan but
    contains neither text. *)
Theorem initial_language_from_locale (JSON_parse : string → Result Value) (date : string) :
  (∀ locale, contains_tag locale →
     get (mounted_state locale JSON_parse (Ok None) date) "language" = Ok (VStr "zh-TW"))
  ∧ (∀ locale, ¬ contains_tag locale →
       get (mounted_state locale JSON_parse (Ok None) date) "language" = Ok (VStr "en"))
  ∧ (∀ locale, length (split_on "-" locale) = 2 →
       indicates_traditional_chinese locale = true →
       get (mounted_state locale JSON_parse (Ok None) date) "language" = Ok (VStr "zh-TW"))
  ∧ get (mounted_state "zh-TW" JSON_parse (Ok None) date) "language" = Ok (VStr "zh-TW")
  ∧ get (mounted_state "zh-HK" JSON_parse (Ok None) date) "language" = Ok (VStr "zh-TW")
  ∧ get (mounted_state "en-US" JSON_parse (Ok None) date) "language" = Ok (VStr "en")
  ∧ get (mounted_state "ZH-tw" JSON_parse (Ok None) date) "language" = Ok (VStr "zh-TW")
  ∧ get (mounted_state "Zh-Hk" JSON_parse (Ok None) date) "language" = Ok (VStr "zh-TW")
  ∧ get (mounted_state "zh-Hant-TW" JSON_parse (Ok None) date) "language" = Ok (VStr "en").
Proof.
  assert (Hlang : ∀ locale,
            get (mounted_state locale JSON_parse (Ok None) date) "language"
            = Ok (VStr (getInitialLanguage locale))) by reflexivity.
  repeat lazymatch goal with |- _ ∧ _ => split end; try reflexivity.
  - intros locale H. rewrite Hlang. by destruct (getInitialLanguage_spec locale) as [-> _].
  - intros locale H. rewrite Hlang. by destruct (getInitialLanguage_spec locale) as [_ ->].
  - intros locale Hlen H. rewrite Hlang.
    destruct (getInitialLanguage_spec locale) as [-> _];
      [done | by apply language_region_contains_tag].
Qed.

(** C7 as stated fails.  The locale ["zh-Hant-TW"] (Chinese, traditional
    script, Taiwan) indicates Traditional Chinese as written in Taiwan, and
    ["zh-Hant-HK"] as written in Hong Kong; with nothing stored, the
    language of the mounted state is ["en"] for both: lower-cased, neither
    contains [zh-tw] or [zh-hk], the script subtag standing between the
    language and the region. *)
Lemma initial_language_script_subtag :
  indicates_traditional_chinese "zh-Hant-TW" = true
  ∧ get (mounted_state "zh-Hant-TW" Sample.parse (Ok None) "2024-01-01") "language"
    = Ok (VStr "en")
  ∧ get (mounted_state "zh-Hant-TW" Sample.parse (Ok None) "2024-01-01") "language"
    ≠ Ok (VStr "zh-TW")
  ∧ indicates_traditional_chinese "zh-Hant-HK" = true
  ∧ get (mounted_state "zh-Hant-HK" Sample.parse (Ok None) "2024-01-01") "language"
    = Ok (VStr "en").
Proof. repeat split; try reflexivity. intros H. vm_compute in H. discriminate H. Qed.

(** The reading of locales used above, on tags as browsers report them. *)
Example indicates_traditional_chinese_samples :
  indicates_traditional_chinese "zh-TW" = true
  ∧ indicates_traditional_chinese "zh-HK" = true
  ∧ indicates_traditional_chinese "zh-tw" = true
  ∧ indicates_traditional_chinese "zh-Hant-TW" = true
  ∧ indicates_traditional_chinese "zh-Hant-HK" = true
  ∧ indicates_traditional_chinese "zh-Hans-TW" = false
  ∧ indicates_traditional_chinese "zh-CN" = false
  ∧ indicates_traditional_chinese "zh-Hans-CN" = false
  ∧ indicates_traditional_chinese "zh" = false
  ∧ indicates_traditional_chinese "en-US" = false
  ∧ indicates_traditional_chinese "ja-JP" = false.
Proof. repeat split; reflexivity. Qed.

(** [toLowerCase] on letters, digits and signs. *)
Example toLowerCase_samples :
  toLowerCase "ZH-Hant-TW" = "zh-hant-tw"
  ∧ toLowerCase "ABCDEFGHIJKLMNOPQRSTUVWXYZ" = "abcdefghijklmnopqrstuvwxyz"
  ∧ toLowerCase "abcxyz-019_@[`{" = "abcxyz-019_@[`{".
Proof. repeat split; reflexivity. Qed.

(** ** Scenarios *)

(** The first food of a day: the log is created with the entry in it. *)
Example addFood_first_entry :
  (s ← addFood Sample.apple 1704067200000 Sample.fresh; foodOn "2024-01-01" s)
  = Ok (VArr [stamped Sample.apple 1704067200000])
  ∧ get (stamped Sample.apple 1704067200000) "calories" = Ok (num 95)
  ∧ get (appState Sample.fresh) "dailyGoal" = Ok (num 2000).
Proof. repeat split; reflexivity. Qed.

(** A stored [null] makes [parsedState.language] throw, and the [catch]
    branch installs the initial state; a stored array is spread by index
    next to the defaults; a storage that throws gives the initial state. *)
Example load_odd_blobs :
  mounted_state "en-US" Sample.parse (Ok (Some "null")) "2024-01-01"
  = initialAppState "en-US"
  ∧ get (mounted_state "en-US" Sample.parse (Ok (Some "[7]")) "2024-01-01") "0"
    = Ok (num 7)
  ∧ get (mounted_state "en-US" Sample.parse (Ok (Some "[7]")) "2024-01-01") "dailyGoal"
    = Ok (num 2000)
  ∧ mounted_state "en-US" Sample.parse (Throw DOMException) "2024-01-01"
    = initialAppState "en-US".
Proof. repeat split; reflexivity. Qed.

(** Locale tags as browsers report them. *)
Example getInitialLanguage_samples :
  getInitialLanguage "zh-tw" = "zh-TW"
  ∧ getInitialLanguage "zh-HK" = "zh-TW"
  ∧ getInitialLanguage "zh-CN" = "en"
  ∧ getInitialLanguage "zh-Hant-TW" = "en"
  ∧ getInitialLanguage "ja-JP" = "en".
Proof. repeat split; reflexivity. Qed.

(** Why the theorems on [logs] ask for a date string: a key that names a
    member of [Object.prototype] finds that member, not a missing log. *)
Example getLogForDate_inherited_name :
  getLogForDate "constructor" Sample.fresh = Ok (VNative "constructor").
Proof. reflexivity. Qed.

(** ** [getDateString] *)

Lemma split_on_first (date time : string) :
  forallb (λ c, negb (Ascii.eqb c "T"%char)) (list_ascii_of_string date) = true →
  split_on "T"%char (date +:+ "T" +:+ time) = date :: split_on "T"%char time.
Proof.
  induction date as [|c date IH]; [done|].
  cbn [list_ascii_of_string forallb]. rewrite andb_true_iff. intros [Hc Hdate].
  change (String c date +:+ "T" +:+ time) with (String c (date +:+ "T" +:+ time)).
  cbn [split_on]. rewrite (IH Hdate).
  by destruct (Ascii.eqb c "T"%char).
Qed.

Lemma date_char_not_T (c : ascii) :
  is_digit c || is_dash c = true → negb (Ascii.eqb c "T"%char) = true.
Proof.
  destruct (Ascii.eqb_spec c "T"%char) as [-> | _]; [|done].
  intros H. vm_compute in H. discriminate H.
Qed.

Lemma date_string_has_no_T (date : string) :
  is_date_string date = true →
  forallb (λ c, negb (Ascii.eqb c "T"%char)) (list_ascii_of_string date) = true.
Proof.
  unfold is_date_string.
  destruct (list_ascii_of_string date)
    as [|y1 [|y2 [|y3 [|y4 [|a [|m1 [|m2 [|b [|d1 [|d2 [|]]]]]]]]]]]; try discriminate.
  rewrite !andb_true_iff. intros [[[[[[[[[? ?] ?] ?] ?] ?] ?] ?] ?] ?].
  cbn [forallb]. rewrite !date_char_not_T; [done | | | | | | | | | |];
    apply orb_true_iff; auto.
Qed.

(** X1.  For a date whose ISO text is a calendar date [YYYY-MM-DD], a [T]
    and the time, [getDateString] is that calendar date, a date string. *)
Theorem getDateString_iso (date time : string) :
  is_date_string date = true →
  getDateString (date +:+ "T" +:+ time) = VStr date.
Proof.
  intros Hdate. unfold getDateString.
  by rewrite (split_on_first _ _ (date_string_has_no_T _ Hdate)).
Qed.

Lemma getDateString_iso_witness :
  getDateString ("2024-01-01" +:+ "T" +:+ "08:30:00.000Z") = VStr "2024-01-01".
Proof. apply getDateString_iso. reflexivity. Defined.

(** ** Write-through *)

(** X2.  In every store a consumer can be handed the provider is
    initialized and the state last handed to [localStorage.setItem] is the
    current state. *)
Theorem persisted_is_current (s : Store) :
  reachable s →
  isInitialized s = true ∧ ∃ older, persisted s = appState s :: older.
Proof.
  intros Hs. split; [by apply reachable_isInitialized|].
  induction Hs as [| updater s s' Hs IH H | newState s accepted s' Hs IH H | date s _ IH].
  - by eexists.
  - apply reachable_isInitialized in Hs. unfold updateState in H.
    destruct (updater (appState s)) as [[|state]|]; simplify_eq/=; [done|].
    unfold persist_effect. simpl. rewrite Hs. simpl. by eexists.
  - apply reachable_isInitialized in Hs. rewrite importData_eq in H.
    case_match eqn:Hc; simplify_eq/=; [|done].
    unfold persist_effect. simpl. rewrite Hs. simpl. by eexists.
  - done.
Qed.

Lemma persisted_is_current_witness :
  isInitialized Sample.fresh = true
  ∧ ∃ older, persisted Sample.fresh = appState Sample.fresh :: older.
Proof. apply persisted_is_current. apply reach_mount. Defined.

(** ** Runs of operations on typed logs *)

Lemma typed_logs_intro (props logs : gmap string Value) :
  props !! "logs" = Some (VObj logs) →
  (∀ d log, logs !! d = Some log → is_DailyLog log = true) →
  has_typed_logs (VObj props) = true.
Proof.
  intros Hlogs Hall. unfold has_typed_logs. rewrite Hlogs.
  by apply bool_decide_eq_true.
Qed.

Lemma typed_logs_put (props logs : gmap string Value) (d : string) (newLog : Value) :
  (∀ d log, logs !! d = Some log → is_DailyLog log = true) →
  is_DailyLog newLog = true →
  has_typed_logs (VObj (<["logs" := VObj (<[d := newLog]> logs)]> props)) = true.
Proof.
  intros Hall Hnew. apply (typed_logs_intro _ (<[d := newLog]> logs)).
  - apply lookup_insert_eq.
  - intros d' log. destruct (decide (d = d')) as [<- | Hne].
    + rewrite lookup_insert_eq. by intros [= <-].
    + rewrite lookup_insert_ne by done. apply Hall.
Qed.

Lemma typed_logs_with_field (props : gmap string Value) (k : string) (v : Value) :
  k ≠ "logs" →
  has_typed_logs (VObj props) = true →
  has_typed_logs (VObj (<[k := v]> props)) = true.
Proof.
  intros Hk Htyped. unfold has_typed_logs in *. by rewrite lookup_insert_ne.
Qed.

Lemma is_DailyLog_intro (log : gmap string Value) (food exercise : list Value) :
  log !! "food" = Some (VArr food) → log !! "exercise" = Some (VArr exercise) →
  forallb is_entry food = true → forallb is_entry exercise = true →
  is_DailyLog (VObj log) = true.
Proof. intros Hf He Hfs Hes. unfold is_DailyLog. by rewrite Hf, He, Hfs, Hes. Qed.

Lemma forallb_filter_keeps (f g : Value → bool) (items : list Value) :
  forallb f items = true → forallb f (List.filter g items) = true.
Proof.
  induction items as [|x items IH]; [done|]. cbn [forallb List.filter].
  rewrite andb_true_iff. intros [Hx Hitems].
  destruct (g x); cbn [forallb]; rewrite ?Hx; by apply IH.
Qed.

(** A setter's updater on a store whose state is an object. *)
Lemma updateState_with_field
    (s : Store) (props : gmap string Value) (k : string) (v : Value) :
  appState s = VObj props →
  updateState (λ prev, Ok (Replace (VObj (<[k := v]> (own_enumerable prev))))) s
  = Ok (setAppState (Replace (VObj (<[k := v]> props))) s).
Proof. intros Hstate. unfold updateState. by rewrite Hstate. Qed.

Lemma setAppState_appState (state : Value) (s : Store) :
  appState (setAppState (Replace state) s) = state.
Proof. simpl. unfold persist_effect. simpl. by destruct (isInitialized s). Qed.

Lemma setAppState_dateString (n : Next) (s : Store) :
  dateString (setAppState n s) = dateString s.
Proof.
  destruct n; [done|]. simpl. unfold persist_effect. simpl. by destruct (isInitialized s).
Qed.

(** One operation on typed logs: it succeeds and the logs stay typed. *)
Lemma perform_keeps_typed_logs (op : Operation) (s : Store) :
  has_typed_logs (appState s) = true →
  is_date_string (dateString s) = true →
  selects_dates op = true →
  ∃ s', perform op s = Ok s'
        ∧ has_typed_logs (appState s') = true
        ∧ is_date_string (dateString s') = true.
Proof.
  intros Htyped Hdate Hop.
  destruct (typed_view s Htyped Hdate)
    as (props & logs & log & food & exercise & Hstate & Hlogs & Hlog & Hf & He & Hfs & Hes
        & _ & _ & _ & Hcase).
  destruct (typed_logs_inv _ Htyped) as (props' & logs' & Hstate' & Hlogs' & Hall).
  assert (props' = props) as -> by congruence.
  assert (logs' = logs) as -> by congruence.
  clear Hstate' Hlogs'.
  assert (Hsetter : ∀ k v, k ≠ "logs" →
            ∃ s', updateState
                    (λ prev, Ok (Replace (VObj (<[k := v]> (own_enumerable prev))))) s = Ok s'
                  ∧ has_typed_logs (appState s') = true
                  ∧ is_date_string (dateString s') = true).
  { intros k v Hk. eexists. split; [by apply updateState_with_field|].
    rewrite setAppState_appState, setAppState_dateString. split; [|done].
    apply typed_logs_with_field; [done|]. by rewrite <- Hstate. }
  destruct op as [entry now | entry now | i | i | v | v | v | v | v | profile | v | | date];
    cbn [perform].
  - eexists. split; [exact (addFood_eq s props logs Hstate Hlogs Hdate _ _ entry now Hlog Hf)|].
    rewrite setAppState_appState, setAppState_dateString. split; [|done].
    apply typed_logs_put; [done|].
    apply (is_DailyLog_intro _ (food ++ [stamped entry now]) exercise).
    + apply lookup_insert_eq.
    + by rewrite lookup_insert_ne.
    + rewrite forallb_app, Hfs. cbn [forallb]. by rewrite stamped_is_entry.
    + done.
  - eexists.
    split; [exact (addExercise_eq s props logs Hstate Hlogs Hdate _ _ entry now Hlog He)|].
    rewrite setAppState_appState, setAppState_dateString. split; [|done].
    apply typed_logs_put; [done|].
    apply (is_DailyLog_intro _ food (exercise ++ [stamped entry now])).
    + by rewrite lookup_insert_ne.
    + apply lookup_insert_eq.
    + done.
    + rewrite forallb_app, Hes. cbn [forallb]. by rewrite stamped_is_entry.
  - destruct Hcase as [Hnone | Hsome].
    + exists s. by rewrite (removeFood_absent s props logs Hstate Hlogs Hdate _ Hnone).
    + eexists.
      split; [exact (removeFood_eq s props logs Hstate Hlogs Hdate _ _ i Hsome Hf Hfs)|].
      rewrite setAppState_appState, setAppState_dateString. split; [|done].
      apply typed_logs_put; [done|].
      apply (is_DailyLog_intro _ (List.filter (λ e, negb (has_id i e)) food) exercise).
      * apply lookup_insert_eq.
      * by rewrite lookup_insert_ne.
      * by apply forallb_filter_keeps.
      * done.
  - destruct Hcase as [Hnone | Hsome].
    + exists s. by rewrite (removeExercise_absent s props logs Hstate Hlogs Hdate _ Hnone).
    + eexists.
      split; [exact (removeExercise_eq s props logs Hstate Hlogs Hdate _ _ i Hsome He Hes)|].
      rewrite setAppState_appState, setAppState_dateString. split; [|done].
      apply typed_logs_put; [done|].
      apply (is_DailyLog_intro _ food (List.filter (λ e, negb (has_id i e)) exercise)).
      * by rewrite lookup_insert_ne.
      * apply lookup_insert_eq.
      * done.
      * by apply forallb_filter_keeps.
  - by apply Hsetter.
  - by apply Hsetter.
  - by apply Hsetter.
  - by apply Hsetter.
  - by apply Hsetter.
  - eexists. split.
    + unfold updateUserProfile, updateState, updateUserProfile_updater.
      rewrite Hstate, get_VObj, !bind_Ok. reflexivity.
    + rewrite setAppState_appState, setAppState_dateString. split; [|done].
      cbn [own_enumerable]. apply typed_logs_with_field; [done|]. by rewrite <- Hstate.
  - by apply Hsetter.
  - by apply Hsetter.
  - exists (setSelectedDate date s). repeat split; [|done]. simpl. by rewrite Hstate in Htyped |- *.
Qed.

(** X3.  From a store whose logs are typed and whose active date is a
    date string, every run of the provider's operations (the four log
    operations, the setters, [updateUserProfile], [setChatHistory],
    [clearChatHistory], and date changes to date strings) goes through
    without a throw, and leaves the logs typed. *)
Theorem operations_keep_typed_logs (ops : list Operation) (s : Store) :
  has_typed_logs (appState s) = true →
  is_date_string (dateString s) = true →
  forallb selects_dates ops = true →
  ∃ s', perform_all ops s = Ok s'
        ∧ has_typed_logs (appState s') = true
        ∧ is_date_string (dateString s') = true.
Proof.
  revert s. induction ops as [|op ops IH]; intros s Htyped Hdate Hops.
  - by exists s.
  - cbn [forallb] in Hops. apply andb_true_iff in Hops as [Hop Hops].
    destruct (perform_keeps_typed_logs op s Htyped Hdate Hop) as (s1 & Hs1 & Htyped1 & Hdate1).
    destruct (IH s1 Htyped1 Hdate1 Hops) as (s' & Hs' & Htyped' & Hdate').
    exists s'. cbn [perform_all]. by rewrite Hs1, bind_Ok.
Qed.

Lemma operations_keep_typed_logs_witness :
  ∃ s',
    perform_all [AddFood Sample.apple 1704067200000; SetSelectedDate "2024-01-02";
                 AddExercise Sample.run 1704153600000; RemoveFood "1704067200000";
                 SetDailyGoal (num 1800); ClearChatHistory] Sample.fresh = Ok s'
    ∧ has_typed_logs (appState s') = true
    ∧ is_date_string (dateString s') = true.
Proof. apply operations_keep_typed_logs; reflexivity. Defined.

(** ** What an operation leaves alone *)

Lemma getLogForDate_unchanged
    (s s' : Store) (props props' logs logs' : gmap string Value) (d : string) :
  appState s = VObj props → props !! "logs" = Some (VObj logs) →
  appState s' = VObj props' → props' !! "logs" = Some (VObj logs') →
  is_date_string d = true →
  logs' !! d = logs !! d →
  getLogForDate d s' = getLogForDate d s.
Proof.
  intros Hstate Hlogs Hstate' Hlogs' Hd Hsame.
  rewrite (getLogForDate_eq s props logs Hstate Hlogs d Hd).
  rewrite (getLogForDate_eq s' props' logs' Hstate' Hlogs' d Hd).
  by rewrite Hsame.
Qed.

(** The state after an updater has put [newLog] under the active date,
    read at another date, at another property, and at the other list of
    the active date. *)
Lemma put_frame
    (s : Store) (props logs log : gmap string Value) (field : string) (items : Value) :
  appState s = VObj props → props !! "logs" = Some (VObj logs) →
  is_date_string (dateString s) = true →
  or_else (default VUndefined (logs !! dateString s)) emptyLog = VObj log →
  let s' := setAppState
              (Replace (VObj (<["logs" := VObj (<[dateString s :=
                 VObj (<[field := items]> log)]> logs)]> props))) s in
  (∀ d, is_date_string d = true → d ≠ dateString s →
        getLogForDate d s' = getLogForDate d s)
  ∧ (∀ k, k ≠ "logs" → own_enumerable (appState s') !! k = own_enumerable (appState s) !! k)
  ∧ (∀ other, other ≠ field →
       (log' ← getLogForDate (dateString s) s'; get log' other)
       = (log' ← getLogForDate (dateString s) s; get log' other)).
Proof.
  intros Hstate Hlogs Hdate Hlog s'. subst s'. split; [|split].
  - intros d Hd Hne.
    eapply getLogForDate_unchanged;
      [exact Hstate | exact Hlogs | apply setAppState_appState | apply lookup_insert_eq
      | exact Hd | by rewrite lookup_insert_ne].
  - intros k Hk. rewrite setAppState_appState, Hstate. cbn [own_enumerable].
    by rewrite lookup_insert_ne.
  - intros other Hother.
    rewrite (getLogForDate_put s props logs Hdate).
    rewrite (getLogForDate_eq s props logs Hstate Hlogs _ Hdate), Hlog, !bind_Ok.
    cbn [or_else truthy]. by rewrite !get_VObj, lookup_insert_ne.
Qed.

(** X4.  On typed logs, an operation that goes through leaves the log of
    every date other than the active one as it was.  The four log
    operations change no top-level property but [logs]; [addFood] and
    [removeFood] leave the exercise list of the active date as it was,
    [addExercise] and [removeExercise] its food list. *)
Theorem operations_frame (op : Operation) (s s' : Store) :
  has_typed_logs (appState s) = true →
  is_date_string (dateString s) = true →
  perform op s = Ok s' →
  (∀ d, is_date_string d = true → d ≠ dateString s →
        getLogForDate d s' = getLogForDate d s)
  ∧ (food_operation op || exercise_operation op = true →
     ∀ k, k ≠ "logs" → own_enumerable (appState s') !! k = own_enumerable (appState s) !! k)
  ∧ (food_operation op = true →
     exerciseOn (dateString s) s' = exerciseOn (dateString s) s)
  ∧ (exercise_operation op = true →
     foodOn (dateString s) s' = foodOn (dateString s) s).
Proof.
  intros Htyped Hdate Hperform.
  destruct (typed_view s Htyped Hdate)
    as (props & logs & log & food & exercise & Hstate & Hlogs & Hlog & Hf & He & Hfs & Hes
        & _ & _ & _ & Hcase).
  assert (Hsame : s' = s →
            (∀ d, is_date_string d = true → d ≠ dateString s →
                  getLogForDate d s' = getLogForDate d s)
            ∧ (food_operation op || exercise_operation op = true →
               ∀ k, k ≠ "logs" →
                    own_enumerable (appState s') !! k = own_enumerable (appState s) !! k)
            ∧ (food_operation op = true →
               exerciseOn (dateString s) s' = exerciseOn (dateString s) s)
            ∧ (exercise_operation op = true →
               foodOn (dateString s) s' = foodOn (dateString s) s)) by by intros ->.
  assert (Hsetter : ∀ k v, k ≠ "logs" →
            s' = setAppState (Replace (VObj (<[k := v]> props))) s →
            ∀ d, is_date_string d = true → d ≠ dateString s →
                 getLogForDate d s' = getLogForDate d s).
  { intros k v Hk -> d Hd _.
    eapply getLogForDate_unchanged;
      [exact Hstate | exact Hlogs | apply setAppState_appState
      | by rewrite lookup_insert_ne | exact Hd | done]. }
  pose proof (put_frame s props logs log) as Hput.
  destruct op as [entry now | entry now | i | i | v | v | v | v | v | profile | v | | date];
    cbn [perform food_operation exercise_operation orb] in *.
  - rewrite (addFood_eq s props logs Hstate Hlogs Hdate _ _ entry now Hlog Hf) in Hperform.
    injection Hperform as <-.
    destruct (Hput "food" (VArr (food ++ [stamped entry now])) Hstate Hlogs Hdate Hlog)
      as (Hother & Hprops & Hlist).
    repeat split; try done. intros _. by apply Hlist.
  - rewrite (addExercise_eq s props logs Hstate Hlogs Hdate _ _ entry now Hlog He) in Hperform.
    injection Hperform as <-.
    destruct (Hput "exercise" (VArr (exercise ++ [stamped entry now])) Hstate Hlogs Hdate Hlog)
      as (Hother & Hprops & Hlist).
    repeat split; try done. intros _. by apply Hlist.
  - destruct Hcase as [Hnone | Hsome].
    + rewrite (removeFood_absent s props logs Hstate Hlogs Hdate _ Hnone) in Hperform.
      injection Hperform as <-. by apply Hsame.
    + rewrite (removeFood_eq s props logs Hstate Hlogs Hdate _ _ i Hsome Hf Hfs) in Hperform.
      injection Hperform as <-.
      destruct (Hput "food" (VArr (List.filter (λ e, negb (has_id i e)) food))
                  Hstate Hlogs Hdate Hlog) as (Hother & Hprops & Hlist).
      repeat split; try done. intros _. by apply Hlist.
  - destruct Hcase as [Hnone | Hsome].
    + rewrite (removeExercise_absent s props logs Hstate Hlogs Hdate _ Hnone) in Hperform.
      injection Hperform as <-. by apply Hsame.
    + rewrite (removeExercise_eq s props logs Hstate Hlogs Hdate _ _ i Hsome He Hes)
        in Hperform.
      injection Hperform as <-.
      destruct (Hput "exercise" (VArr (List.filter (λ e, negb (has_id i e)) exercise))
                  Hstate Hlogs Hdate Hlog) as (Hother & Hprops & Hlist).
      repeat split; try done. intros _. by apply Hlist.
  - repeat split; try done. eapply (Hsetter "dailyGoal"); [done|].
    unfold setDailyGoal, setDailyGoal_updater in Hperform.
    rewrite (updateState_with_field s props _ _ Hstate) in Hperform. by injection Hperform.
  - repeat split; try done. eapply (Hsetter "apiKey"); [done|].
    unfold setApiKey, setApiKey_updater in Hperform.
    rewrite (updateState_with_field s props _ _ Hstate) in Hperform. by injection Hperform.
  - repeat split; try done. eapply (Hsetter "macronutrientGoals"); [done|].
    unfold setMacronutrientGoals, setMacronutrientGoals_updater in Hperform.
    rewrite (updateState_with_field s props _ _ Hstate) in Hperform. by injection Hperform.
  - repeat split; try done. eapply (Hsetter "aiModel"); [done|].
    unfold setAiModel, setAiModel_updater in Hperform.
    rewrite (updateState_with_field s props _ _ Hstate) in Hperform. by injection Hperform.
  - repeat split; try done. eapply (Hsetter "language"); [done|].
    unfold setLanguage, setLanguage_updater in Hperform.
    rewrite (updateState_with_field s props _ _ Hstate) in Hperform. by injection Hperform.
  - repeat split; try done. eapply (Hsetter "userProfile"); [done|].
    unfold updateUserProfile, updateState, updateUserProfile_updater in Hperform.
    rewrite Hstate, get_VObj, !bind_Ok in Hperform. cbn [own_enumerable] in Hperform.
    injection Hperform as <-. reflexivity.
  - repeat split; try done. eapply (Hsetter "chatHistory"); [done|].
    unfold setChatHistory, setChatHistory_updater in Hperform.
    rewrite (updateState_with_field s props _ _ Hstate) in Hperform. by injection Hperform.
  - repeat split; try done. eapply (Hsetter "chatHistory"); [done|].
    unfold clearChatHistory in Hperform.
    rewrite (updateState_with_field s props _ _ Hstate) in Hperform. by injection Hperform.
  - injection Hperform as <-. by repeat split.
Qed.

Lemma operations_frame_witness :
  ∃ s',
    perform (AddFood Sample.banana 1704067200000) Sample.one_apple = Ok s'
    ∧ (∀ d, is_date_string d = true → d ≠ "2024-01-01" →
            getLogForDate d s' = getLogForDate d Sample.one_apple)
    ∧ (∀ k, k ≠ "logs" →
            own_enumerable (appState s') !! k
            = own_enumerable (appState Sample.one_apple) !! k)
    ∧ exerciseOn "2024-01-01" s' = exerciseOn "2024-01-01" Sample.one_apple.
Proof.
  eexists. split; [reflexivity|].
  edestruct (operations_frame (AddFood Sample.banana 1704067200000) Sample.one_apple)
    as (Hdates & Hprops & Hexercise & _); [reflexivity | reflexivity | reflexivity |].
  split; [exact Hdates|]. split; [by apply Hprops | by apply Hexercise].
Defined.

(** ** The setters *)

Ltac lookup_inserts :=
  repeat first [rewrite lookup_insert_eq | rewrite lookup_insert_ne by done].

(** X5.  [updateUserProfile] merges shallowly: on a state object, every
    property the partial profile has (a [null] too) replaces the stored
    one, every property it lacks keeps its stored value, nothing else in
    the state changes, and doing it again with the same partial profile
    changes nothing more. *)
Theorem updateUserProfile_merges (profile : Value) (s : Store) :
  is_plain_object (appState s) = true →
  ∃ s' merged,
    updateUserProfile profile s = Ok s'
    ∧ get (appState s') "userProfile" = Ok (VObj merged)
    ∧ (∀ k v, own_enumerable profile !! k = Some v → merged !! k = Some v)
    ∧ (∀ k, own_enumerable profile !! k = None →
            merged !! k
            = own_enumerable
                (default VUndefined (own_enumerable (appState s) !! "userProfile")) !! k)
    ∧ (∀ k, k ≠ "userProfile" →
            own_enumerable (appState s') !! k = own_enumerable (appState s) !! k)
    ∧ ∃ s'', updateUserProfile profile s' = Ok s'' ∧ appState s'' = appState s'.
Proof.
  intros Hobject. destruct (appState s) as [| | | | | |props|] eqn:Hstate;
    try discriminate Hobject. cbn [own_enumerable].
  set (old := default VUndefined (props !! "userProfile")).
  assert (Hstep : ∀ (s0 : Store) (props0 : gmap string Value),
            appState s0 = VObj props0 →
            updateUserProfile profile s0
            = Ok (setAppState
                    (Replace (VObj (<["userProfile" :=
                       VObj (own_enumerable profile
                             ∪ own_enumerable (default VUndefined (props0 !! "userProfile")))]>
                       props0))) s0)).
  { intros s0 props0 Hs0. unfold updateUserProfile, updateState, updateUserProfile_updater.
    by rewrite Hs0, get_VObj, !bind_Ok. }
  eexists _, (own_enumerable profile ∪ own_enumerable old).
  split; [by apply Hstep|]. rewrite setAppState_appState. split; [|split; [|split; [|split]]].
  - apply get_own, lookup_insert_eq.
  - intros k v Hk. by apply lookup_union_Some_l.
  - intros k Hk. by rewrite lookup_union_r.
  - intros k Hk. cbn [own_enumerable]. by rewrite lookup_insert_ne.
  - eexists. split; [apply Hstep, setAppState_appState|].
    rewrite !setAppState_appState, lookup_insert_eq. cbn [default from_option id own_enumerable].
    by rewrite insert_insert_eq, (assoc (∪)), (idemp (∪)).
Qed.

Lemma updateUserProfile_merges_witness :
  ∃ s' merged,
    updateUserProfile (obj [("age", num 30); ("sex", VNull)]) Sample.fresh = Ok s'
    ∧ get (appState s') "userProfile" = Ok (VObj merged)
    ∧ (∀ k v, own_enumerable (obj [("age", num 30); ("sex", VNull)]) !! k = Some v →
              merged !! k = Some v)
    ∧ (∀ k, own_enumerable (obj [("age", num 30); ("sex", VNull)]) !! k = None →
            merged !! k
            = own_enumerable
                (default VUndefined
                   (own_enumerable (appState Sample.fresh) !! "userProfile")) !! k)
    ∧ (∀ k, k ≠ "userProfile" →
            own_enumerable (appState s') !! k = own_enumerable (appState Sample.fresh) !! k)
    ∧ ∃ s'', updateUserProfile (obj [("age", num 30); ("sex", VNull)]) s' = Ok s''
             ∧ appState s'' = appState s'.
Proof. apply updateUserProfile_merges. reflexivity. Defined.

(** A batch of one updater is [updateState]. *)
Lemma commit_one (updater : Value → Result Next) (s : Store) :
  commit [updater] s = updateState updater s.
Proof.
  unfold commit, updateState. cbn [run_queue].
  destruct (updater (appState s)) as [[|state]|]; reflexivity.
Qed.

Lemma handleSave_eq (localState : SettingsForm) (s : Store) :
  handleSave localState s
  = Ok (setAppState
          (Replace
             (VObj (<["macronutrientGoals" := form_macronutrientGoals localState]>
                   (<["dailyGoal" := form_dailyGoal localState]>
                   (<["userProfile" :=
                       VObj (own_enumerable (form_userProfile localState)
                             ∪ own_enumerable
                                 (default VUndefined
                                    (own_enumerable (appState s) !! "userProfile")))]>
                   (<["language" := form_language localState]>
                   (<["aiModel" := form_aiModel localState]>
                   (<["apiKey" := form_apiKey localState]>
                   (own_enumerable (appState s)))))))))) s).
Proof.
  unfold handleSave, commit. cbn [run_queue].
  unfold setApiKey_updater, setAiModel_updater, setLanguage_updater, setDailyGoal_updater,
    setMacronutrientGoals_updater, updateUserProfile_updater.
  rewrite !bind_Ok. cbn [own_enumerable]. rewrite get_VObj, !bind_Ok.
  by lookup_inserts.
Qed.

(** X6.  [handleSave] never throws.  It leaves the form's [apiKey],
    [aiModel], [language], [dailyGoal] and [macronutrientGoals] in the
    state, the form's profile merged over the stored one, every other
    property ([logs], [chatHistory], [customFoods], ...) as it was, and
    hands the new state to storage once; saving the same form again
    changes nothing. *)
Theorem handleSave_spec (localState : SettingsForm) (s : Store) :
  ∃ s',
    handleSave localState s = Ok s'
    ∧ get (appState s') "apiKey" = Ok (form_apiKey localState)
    ∧ get (appState s') "aiModel" = Ok (form_aiModel localState)
    ∧ get (appState s') "language" = Ok (form_language localState)
    ∧ get (appState s') "dailyGoal" = Ok (form_dailyGoal localState)
    ∧ get (appState s') "macronutrientGoals" = Ok (form_macronutrientGoals localState)
    ∧ get (appState s') "userProfile"
      = Ok (VObj (own_enumerable (form_userProfile localState)
                  ∪ own_enumerable
                      (default VUndefined (own_enumerable (appState s) !! "userProfile"))))
    ∧ (∀ k, k ∉ ["apiKey"; "aiModel"; "language"; "userProfile"; "dailyGoal";
                 "macronutrientGoals"] →
            own_enumerable (appState s') !! k = own_enumerable (appState s) !! k)
    ∧ (isInitialized s = true → persisted s' = appState s' :: persisted s)
    ∧ ∃ s'', handleSave localState s' = Ok s'' ∧ appState s'' = appState s'.
Proof.
  eexists. split; [apply handleSave_eq|]. rewrite setAppState_appState.
  repeat split.
  - apply get_own. by lookup_inserts.
  - apply get_own. by lookup_inserts.
  - apply get_own. by lookup_inserts.
  - apply get_own. by lookup_inserts.
  - apply get_own. by lookup_inserts.
  - apply get_own. by lookup_inserts.
  - intros k Hk. cbn [own_enumerable]. rewrite !lookup_insert_ne; [done | | | | | |];
      intros <-; apply Hk; repeat constructor.
  - intros Hinit. simpl. unfold persist_effect. simpl. by rewrite Hinit.
  - eexists. split; [apply handleSave_eq|]. rewrite !setAppState_appState.
    cbn [own_enumerable]. f_equal.
    lookup_inserts.
    cbn [default from_option id own_enumerable].
    rewrite (assoc (∪)), (idemp (∪)).
    apply map_eq. intros k.
    destruct (decide (k = "macronutrientGoals")) as [-> | ?]; [by lookup_inserts|].
    destruct (decide (k = "dailyGoal")) as [-> | ?]; [by lookup_inserts|].
    destruct (decide (k = "userProfile")) as [-> | ?]; [by lookup_inserts|].
    destruct (decide (k = "language")) as [-> | ?]; [by lookup_inserts|].
    destruct (decide (k = "aiModel")) as [-> | ?]; [by lookup_inserts|].
    destruct (decide (k = "apiKey")) as [-> | ?]; [by lookup_inserts|].
    by lookup_inserts.
Qed.

(** ** The assistant view *)

Lemma setChatHistory_eq (history : Value) (s : Store) :
  setChatHistory history s
  = Ok (setAppState
          (Replace (VObj (<["chatHistory" := history]> (own_enumerable (appState s))))) s).
Proof. reflexivity. Qed.

(** X7.  [handleSend] with a non-blank input, no request out and an API
    key appends the user's message, clears the input and marks the view
    loading; while it is loading a further [handleSend] does nothing.
    When the answer arrives the chat history becomes the history captured
    when the request went out, the user's message and the answer,
    whatever the store holds by then (a chat cleared or replaced in the
    meantime is overwritten); the rest of the state is left as it is by
    then. *)
Theorem handleSend_overwrites
    (view : AiView) (s : Store) (apiKey : Value) (history : list Value) :
  is_blank (input view) = false →
  isLoading view = false →
  get (appState s) "apiKey" = Ok apiKey →
  truthy apiKey = true →
  get (appState s) "chatHistory" = Ok (VArr history) →
  ∃ s1,
    handleSend_start view s
    = Ok ({| input := ""; isLoading := true |}, s1,
          Some (history ++ [chat_message "user" (input view)])%list)
    ∧ get (appState s1) "chatHistory"
      = Ok (VArr (history ++ [chat_message "user" (input view)])%list)
    ∧ (∀ text,
         handleSend_start {| input := text; isLoading := true |} s1
         = Ok ({| input := text; isLoading := true |}, s1, None))
    ∧ ∀ (view2 : AiView) (s2 : Store) (aiResponse : string),
        ∃ s3,
          handleSend_finish (history ++ [chat_message "user" (input view)])%list
            aiResponse view2 s2
          = Ok ({| input := input view2; isLoading := false |}, s3)
          ∧ get (appState s3) "chatHistory"
            = Ok (VArr (history ++ [chat_message "user" (input view);
                                    chat_message "model" aiResponse])%list)
          ∧ ∀ k, k ≠ "chatHistory" →
                 own_enumerable (appState s3) !! k = own_enumerable (appState s2) !! k.
Proof.
  intros Hblank Hloading HapiKey Htruthy Hhistory.
  eexists. split; [|split; [|split]].
  - unfold handleSend_start. rewrite Hblank, Hloading. cbn [orb].
    rewrite HapiKey, bind_Ok, Htruthy. cbn [negb].
    rewrite Hhistory, bind_Ok. cbn [iterate]. rewrite bind_Ok, setChatHistory_eq, bind_Ok.
    reflexivity.
  - rewrite setAppState_appState. apply get_own, lookup_insert_eq.
  - intros text. unfold handleSend_start. cbn [isLoading].
    by rewrite orb_true_r.
  - intros view2 s2 aiResponse. eexists. split; [|split].
    + unfold handleSend_finish. rewrite setChatHistory_eq, bind_Ok. reflexivity.
    + rewrite setAppState_appState, <- app_assoc. apply get_own, lookup_insert_eq.
    + intros k Hk. rewrite setAppState_appState. cbn [own_enumerable].
      by rewrite lookup_insert_ne.
Qed.

Lemma handleSend_overwrites_witness :
  ∃ s1,
    handleSend_start SampleViews.asking SampleViews.chatting
    = Ok ({| input := ""; isLoading := true |}, s1,
          Some ([chat_message "user" "hi"; chat_message "model" "hello"]
                ++ [chat_message "user" (input SampleViews.asking)])%list)
    ∧ get (appState s1) "chatHistory"
      = Ok (VArr ([chat_message "user" "hi"; chat_message "model" "hello"]
                  ++ [chat_message "user" (input SampleViews.asking)])%list)
    ∧ (∀ text,
         handleSend_start {| input := text; isLoading := true |} s1
         = Ok ({| input := text; isLoading := true |}, s1, None))
    ∧ ∀ (view2 : AiView) (s2 : Store) (aiResponse : string),
        ∃ s3,
          handleSend_finish
            ([chat_message "user" "hi"; chat_message "model" "hello"]
             ++ [chat_message "user" (input SampleViews.asking)])%list
            aiResponse view2 s2
          = Ok ({| input := input view2; isLoading := false |}, s3)
          ∧ get (appState s3) "chatHistory"
            = Ok (VArr ([chat_message "user" "hi"; chat_message "model" "hello"]
                        ++ [chat_message "user" (input SampleViews.asking);
                            chat_message "model" aiResponse])%list)
          ∧ ∀ k, k ≠ "chatHistory" →
                 own_enumerable (appState s3) !! k = own_enumerable (appState s2) !! k.
Proof.
  apply (handleSend_overwrites SampleViews.asking SampleViews.chatting (VStr "key"));
    reflexivity.
Defined.

(** A chat cleared while the request is out comes back with the answer. *)
Example handleSend_undoes_clear :
  ∃ s1 s2 s3 view3 captured,
    handleSend_start SampleViews.asking SampleViews.chatting
    = Ok ({| input := ""; isLoading := true |}, s1, Some captured)
    ∧ clearChatHistory s1 = Ok s2
    ∧ get (appState s2) "chatHistory" = Ok (VArr [])
    ∧ handleSend_finish captured "About 1200." {| input := ""; isLoading := true |} s2
      = Ok (view3, s3)
    ∧ get (appState s3) "chatHistory"
      = Ok (VArr [chat_message "user" "hi"; chat_message "model" "hello";
                  chat_message "user" "How many calories today?";
                  chat_message "model" "About 1200."]).
Proof. eexists _, _, _, _, _. repeat split; reflexivity. Qed.

(** ** Importing a file *)

(** X8.  [handleImport] shows the success alert exactly when the text
    parses to a value that passes the check of [importData], and the state
    is then that value; otherwise (the text does not parse, or the value
    is rejected) it shows the error alert and the store is as it was. *)
Theorem handleImport_spec (JSON_parse : string → Result Value) (text : string) (s : Store) :
  ((handleImport JSON_parse text s).1 = Imported
   ↔ ∃ newState, JSON_parse text = Ok newState ∧ importData_check newState = Ok true)
  ∧ (∀ newState,
       JSON_parse text = Ok newState → importData_check newState = Ok true →
       handleImport JSON_parse text s = (Imported, setAppState (Replace newState) s)
       ∧ appState (handleImport JSON_parse text s).2 = newState)
  ∧ ((handleImport JSON_parse text s).1 = ImportError →
     (handleImport JSON_parse text s).2 = s).
Proof.
  unfold handleImport.
  destruct (JSON_parse text) as [newState|e] eqn:Hparse; rewrite ?bind_Ok.
  - pose proof (importData_check_eq newState) as Hcheck. rewrite importData_eq.
    destruct (truthy newState
              && truthy (default VUndefined (own_property newState "logs"))
              && typeof_is_number (default VUndefined (own_property newState "dailyGoal")));
      cbn [fst snd].
    + split; [|split].
      * split; [intros _; by exists newState | done].
      * intros ? [= <-] _. split; [done | apply setAppState_appState].
      * done.
    + split; [|split].
      * split; [done|]. intros (? & [= <-] & Htrue). congruence.
      * intros ? [= <-] Htrue. congruence.
      * done.
  - cbn [mbind Result_bind fst snd]. split; [|split]; [|done|done].
    split; [done | by intros (? & [=] & _)].
Qed.

(** ** More on the load effect *)

Lemma or_else_truthy (a b : Value) : truthy b = true → truthy (or_else a b) = true.
Proof. intros Hb. unfold or_else. by destruct (truthy a) eqn:Ha. Qed.

Lemma or_else_left (a b : Value) : truthy a = true → or_else a b = a.
Proof. intros Ha. unfold or_else. by rewrite Ha. Qed.

Lemma getInitialLanguage_truthy (locale : string) :
  truthy (VStr (getInitialLanguage locale)) = true.
Proof.
  unfold getInitialLanguage.
  by destruct (includes (toLowerCase locale) "zh-tw" || includes (toLowerCase locale) "zh-hk").
Qed.

(** The properties of the initial state, whatever the locale. *)
Lemma initial_has (locale : string) (k : string) :
  is_Some (own_enumerable (initialAppState locale) !! k)
  ↔ k ∈ ["dailyGoal"; "macronutrientGoals"; "logs"; "customFoods"; "apiKey"; "aiModel";
         "language"; "userProfile"; "chatHistory"].
Proof.
  unfold initialAppState, obj. cbn [own_enumerable list_to_map foldr uncurry].
  rewrite !lookup_insert_is_Some, lookup_empty, is_Some_alt, !elem_of_cons, elem_of_nil.
  split.
  - intuition auto.
  - intros H.
    repeat (destruct H as [-> | H];
            [repeat first [left; reflexivity | right; split; [done|]]|]).
    done.
Qed.

(** The two shapes of what the load effect installs. *)
Lemma load_cases (locale : string) (JSON_parse : string → Result Value)
    (item : Result (option string)) :
  load locale JSON_parse item = initialAppState locale
  ∨ ∃ blob parsed,
      blob ≠ "" ∧ JSON_parse blob = Ok parsed ∧ parsed ≠ VNull ∧ parsed ≠ VUndefined
      ∧ item = Ok (Some blob).
Proof.
  destruct item as [[blob|]|e]; [| by left | by left].
  destruct (decide (blob = "")) as [-> | Hblob]; [by left|].
  destruct (JSON_parse blob) as [parsed|e] eqn:Hparse.
  - assert (Hcase : (parsed = VNull ∨ parsed = VUndefined)
                    ∨ (parsed ≠ VNull ∧ parsed ≠ VUndefined))
      by (destruct parsed; auto).
    destruct Hcase as [Hnullish | [Hnull Hundef]].
    + left. apply (load_fallback _ _ _ _ Hparse). by right.
    + right. by exists blob, parsed.
  - left. apply load_initial. right. right. by exists blob, e.
Qed.

(** What every loaded state has: the four properties the load effect
    defaults, truthy, and every property of the initial state. *)
Lemma load_shape (locale : string) (JSON_parse : string → Result Value)
    (item : Result (option string)) :
  ∃ props,
    load locale JSON_parse item = VObj props
    ∧ (∀ k, k ∈ ["language"; "userProfile"; "chatHistory"; "macronutrientGoals"] →
            ∃ v, props !! k = Some v ∧ truthy v = true)
    ∧ (∀ locale' k, is_Some (own_enumerable (initialAppState locale') !! k) →
                    is_Some (props !! k)).
Proof.
  destruct (load_cases locale JSON_parse item)
    as [-> | (blob & parsed & Hblob & Hparse & Hnull & Hundef & ->)].
  - exists (own_enumerable (initialAppState locale)). split; [reflexivity|]. split.
    + intros k Hk. rewrite !elem_of_cons, elem_of_nil in Hk.
      destruct Hk as [-> | [-> | [-> | [-> | []]]]]; eexists; (split; [reflexivity|]);
        try reflexivity. apply getInitialLanguage_truthy.
    + intros locale' k. by rewrite !initial_has.
  - rewrite (load_parsed _ _ _ _ Hblob Hparse Hnull Hundef).
    eexists. split; [reflexivity|]. split.
    + intros k Hk. rewrite !elem_of_cons, elem_of_nil in Hk.
      destruct Hk as [-> | [-> | [-> | [-> | []]]]]; eexists;
        (split; [by lookup_inserts|]); apply or_else_truthy; try reflexivity.
      apply getInitialLanguage_truthy.
    + intros locale' k Hk. rewrite !lookup_insert_is_Some'. do 4 right.
      apply lookup_union_is_Some. right. by rewrite initial_has, <- (initial_has locale').
Qed.

(** X9.  Loading is stable: when the stored blob parses to a state that an
    earlier load produced, the load effect installs that very state again,
    whatever the device locale has become.  A language once stored is not
    replaced by the locale's. *)
Theorem load_is_stable
    (locale locale' : string) (JSON_parse JSON_parse' : string → Result Value)
    (item : Result (option string)) (blob : string) :
  blob ≠ "" →
  JSON_parse' blob = Ok (load locale JSON_parse item) →
  load locale' JSON_parse' (Ok (Some blob)) = load locale JSON_parse item.
Proof.
  intros Hblob Hparse.
  destruct (load_shape locale JSON_parse item) as (props & Hload & Hfour & Hkeys).
  rewrite Hload in Hparse |- *.
  rewrite (load_parsed _ _ _ _ Hblob Hparse) by done.
  cbn [own_property own_enumerable].
  destruct (Hfour "language") as (l & Hl & Hlt); [repeat constructor|].
  destruct (Hfour "userProfile") as (u & Hu & Hut); [repeat constructor|].
  destruct (Hfour "chatHistory") as (c & Hc & Hct); [repeat constructor|].
  destruct (Hfour "macronutrientGoals") as (m & Hm & Hmt); [repeat constructor|].
  rewrite Hl, Hu, Hc, Hm. cbn [default from_option id].
  rewrite !or_else_left by done.
  assert (Hunion : props ∪ own_enumerable (initialAppState locale') = props).
  { apply map_eq. intros k.
    destruct (props !! k) as [v|] eqn:Hk; [by apply lookup_union_Some_l|].
    rewrite lookup_union_r by done.
    destruct (own_enumerable (initialAppState locale') !! k) as [v|] eqn:Hinit; [|done].
    destruct (Hkeys locale' k) as [v' Hv']; [by eexists | congruence]. }
  rewrite Hunion.
  by rewrite (insert_id props _ _ Hl), (insert_id props _ _ Hu),
    (insert_id props _ _ Hc), (insert_id props _ _ Hm).
Qed.

Lemma load_is_stable_witness :
  load "zh-TW" SampleViews.parse_first_start (Ok (Some "stored"))
  = load "en-US" Sample.parse (Ok None).
Proof. apply load_is_stable; [discriminate | reflexivity]. Defined.

(** The language stored on an English device survives a start on a
    Taiwanese one. *)
Example stored_language_wins :
  get (mounted_state "zh-TW" SampleViews.parse_first_start (Ok (Some "stored")) "2024-01-01")
      "language" = Ok (VStr "en").
Proof. reflexivity. Qed.

(** X10.  The load effect takes [logs] as stored.  When the stored object
    has [logs: null], the mounted store throws a [TypeError] on every read
    of a log and on every log operation, for every date and entry. *)
Theorem load_null_logs
    (locale : string) (JSON_parse : string → Result Value) (blob : string)
    (stored : gmap string Value) (date : string) :
  blob ≠ "" →
  JSON_parse blob = Ok (VObj stored) →
  stored !! "logs" = Some VNull →
  get (mounted_state locale JSON_parse (Ok (Some blob)) date) "logs" = Ok VNull
  ∧ ∀ d entry now i,
      getLogForDate d (mount locale JSON_parse (Ok (Some blob)) date) = Throw TypeError
      ∧ addFood entry now (mount locale JSON_parse (Ok (Some blob)) date) = Throw TypeError
      ∧ addExercise entry now (mount locale JSON_parse (Ok (Some blob)) date)
        = Throw TypeError
      ∧ removeFood i (mount locale JSON_parse (Ok (Some blob)) date) = Throw TypeError
      ∧ removeExercise i (mount locale JSON_parse (Ok (Some blob)) date) = Throw TypeError.
Proof.
  intros Hblob Hparse Hlogs.
  assert (Hget : get (mounted_state locale JSON_parse (Ok (Some blob)) date) "logs"
                 = Ok VNull).
  { rewrite mounted_state_eq, (load_parsed _ _ _ _ Hblob Hparse) by done.
    apply get_own. lookup_inserts. cbn [own_enumerable].
    by apply lookup_union_Some_l. }
  split; [exact Hget|]. unfold mounted_state in Hget.
  intros d entry now i.
  unfold getLogForDate, addFood, addExercise, removeFood, removeExercise, updateState.
  by rewrite !Hget.
Qed.

Lemma load_null_logs_witness :
  get (mounted_state "en-US" SampleViews.parse_null_logs (Ok (Some "stored")) "2024-01-01")
      "logs" = Ok VNull
  ∧ ∀ d entry now i,
      getLogForDate d
        (mount "en-US" SampleViews.parse_null_logs (Ok (Some "stored")) "2024-01-01")
      = Throw TypeError
      ∧ addFood entry now
          (mount "en-US" SampleViews.parse_null_logs (Ok (Some "stored")) "2024-01-01")
        = Throw TypeError
      ∧ addExercise entry now
          (mount "en-US" SampleViews.parse_null_logs (Ok (Some "stored")) "2024-01-01")
        = Throw TypeError
      ∧ removeFood i
          (mount "en-US" SampleViews.parse_null_logs (Ok (Some "stored")) "2024-01-01")
        = Throw TypeError
      ∧ removeExercise i
          (mount "en-US" SampleViews.parse_null_logs (Ok (Some "stored")) "2024-01-01")
        = Throw TypeError.
Proof.
  apply (load_null_logs "en-US" SampleViews.parse_null_logs "stored"
           (list_to_map [("dailyGoal", num 1800); ("logs", VNull)]));
    [discriminate | reflexivity | reflexivity].
Defined.

(** ** The hook *)

(** X11.  [useAppState] throws its error only when a provider supplies
    [undefined].  Outside every provider it returns the context's default
    [null], and reading a property of that, as every caller does at
    once, throws a [TypeError]. *)
Theorem useAppState_guard :
  (∀ provider,
     (∃ message, useAppState provider = ThrownError message) ↔ provider = Some VUndefined)
  ∧ useAppState None = Returned VNull
  ∧ (∀ k, get VNull k = Throw TypeError)
  ∧ (∀ value, value ≠ VUndefined → useAppState (Some value) = Returned value).
Proof.
  split; [|split; [|split]]; try done.
  - intros [value|]; unfold useAppState, useContext; cbn [default from_option id].
    + destruct value; split; try done; try (by intros [? ?]); by eexists.
    + split; [by intros [? ?] | done].
  - intros value Hvalue. unfold useAppState, useContext. cbn [default from_option id].
    by destruct value.
Qed.

(** ** The state is always an object *)

Lemma indexed_only_indices (items : list Value) (k : string) :
  NilZero.uint_of_string k = None → indexed items !! k = None.
Proof.
  intros Hk. destruct (indexed items !! k) as [v|] eqn:Hlookup; [|done].
  apply elem_of_list_to_map_2, elem_of_lookup_imap_1 in Hlookup as (i & y & [= -> ->] & _).
  unfold index_key in Hk.
  destruct (NilZero.usu_gen (Nat.to_uint i)) as [H | H]; congruence.
Qed.

(** A value whose [logs] is truthy is a plain object. *)
Lemma truthy_logs_object (v : Value) :
  truthy (default VUndefined (own_property v "logs")) = true → is_plain_object v = true.
Proof.
  destruct v as [| | | |text|items| |]; cbn [own_property own_enumerable]; try done.
  - cbn [String.eqb Ascii.eqb Bool.eqb].
    change ("logs" =? "length")%string with false. cbn iota.
    by rewrite (indexed_only_indices _ "logs").
  - change ("logs" =? "length")%string with false. cbn iota.
    by rewrite (indexed_only_indices _ "logs").
Qed.

Lemma updateState_object (updater : Value → Result Next) (s s' : Store) :
  (∀ prev state, updater prev = Ok (Replace state) → is_plain_object state = true) →
  is_plain_object (appState s) = true →
  updateState updater s = Ok s' →
  is_plain_object (appState s') = true.
Proof.
  intros Hupdater Hs Hs'. unfold updateState in Hs'.
  destruct (updater (appState s)) as [[|state]|] eqn:Hu;
    cbn [mbind Result_bind] in Hs'; [| |discriminate Hs']; injection Hs' as <-; [done|].
  simpl. unfold persist_effect. simpl. destruct (isInitialized s); simpl; by eapply Hupdater.
Qed.

Ltac updater_gives_object :=
  intros prev state Hupdater;
  unfold setDailyGoal_updater, setApiKey_updater, setMacronutrientGoals_updater,
    setAiModel_updater, setLanguage_updater, updateUserProfile_updater,
    setChatHistory_updater, mbind, Result_bind in Hupdater;
  repeat case_match; by simplify_eq.

Lemma perform_object (op : Operation) (s s' : Store) :
  is_plain_object (appState s) = true →
  perform op s = Ok s' →
  is_plain_object (appState s') = true.
Proof.
  intros Hs Hperform.
  destruct op; cbn [perform] in Hperform;
    try (eapply updateState_object; [|exact Hs|exact Hperform]; updater_gives_object).
  by injection Hperform as <-.
Qed.

(** X12.  Through a whole session (the provider mounts, then the views
    call any of the operations and [importData], with whatever values) the
    state is a plain object: never [null], [undefined], a primitive or an
    array. *)
Theorem session_state_is_object (s : Store) :
  in_session s → is_plain_object (appState s) = true.
Proof.
  induction 1 as [locale JSON_parse item date | op s s' _ IH Hperform
                  | newState s accepted s' _ IH Himport].
  - destruct (load_shape locale JSON_parse item) as (props & Hload & _).
    change (appState (mount locale JSON_parse item date)) with (load locale JSON_parse item).
    by rewrite Hload.
  - by eapply perform_object.
  - rewrite importData_eq in Himport.
    case_match eqn:Hcheck; injection Himport as _ <-; [|done].
    apply andb_true_iff in Hcheck as [Hcheck _]. apply andb_true_iff in Hcheck as [_ Hlogs].
    apply truthy_logs_object in Hlogs.
    simpl. unfold persist_effect. simpl. by destruct (isInitialized s).
Qed.

Lemma session_state_is_object_witness :
  ∃ s2,
    perform (AddFood Sample.apple 1704067200000)
      (setAppState (Replace (obj [("logs", VStr "x"); ("dailyGoal", num 1)])) Sample.fresh)
    = Ok s2
    ∧ is_plain_object (appState s2) = true.
Proof.
  eexists. split; [reflexivity|].
  apply session_state_is_object.
  eapply (session_perform (AddFood Sample.apple 1704067200000)
            (setAppState (Replace (obj [("logs", VStr "x"); ("dailyGoal", num 1)]))
               Sample.fresh)); [|reflexivity].
  eapply (session_importData (obj [("logs", VStr "x"); ("dailyGoal", num 1)])
            Sample.fresh true); [apply session_mount | reflexivity].
Defined.

(** ** Starting without a usable stored state *)

(** X13.  When nothing is stored, the stored text is empty, the storage
    throws, the text does not parse, or it parses to [null], the provider
    starts from the initial state and hands that initial state to storage:
    what was stored is replaced by the defaults. *)
Theorem mount_falls_back
    (locale : string) (JSON_parse : string → Result Value)
    (item : Result (option string)) (date : string) :
  item = Ok None
  ∨ item = Ok (Some "")
  ∨ (∃ e, item = Throw e)
  ∨ (∃ blob e, item = Ok (Some blob) ∧ JSON_parse blob = Throw e)
  ∨ (∃ blob, item = Ok (Some blob) ∧ JSON_parse blob = Ok VNull) →
  mount locale JSON_parse item date
  = {| appState := initialAppState locale; isInitialized := true;
       dateString := date; persisted := [initialAppState locale] |}.
Proof.
  intros Hitem.
  assert (Hload : load locale JSON_parse item = initialAppState locale).
  { destruct Hitem as [-> | [-> | [[e ->] | [(blob & e & -> & Hparse) | (blob & -> & Hparse)]]]].
    - reflexivity.
    - reflexivity.
    - reflexivity.
    - apply load_initial. right. right. by exists blob, e.
    - apply (load_fallback _ _ _ _ Hparse). right. by left. }
  unfold mount, persist_effect. cbn [isInitialized appState dateString persisted].
  by rewrite Hload.
Qed.

Lemma mount_falls_back_witness :
  mount "en-US" Sample.parse (Ok (Some "{not json")) "2024-01-01"
  = {| appState := initialAppState "en-US"; isInitialized := true;
       dateString := "2024-01-01"; persisted := [initialAppState "en-US"] |}.
Proof.
  apply mount_falls_back. right. right. right. left.
  exists "{not json", SyntaxError. split; reflexivity.
Defined.

(** ** More scenarios *)

(** White space as [trim] sees it: ASCII blanks, and the ideographic space
    U+3000 in its three UTF-8 bytes; text in any script is not blank. *)
Example is_blank_samples :
  is_blank "" = true
  ∧ is_blank "  " = true
  ∧ is_blank "　" = true
  ∧ is_blank " a " = false
  ∧ is_blank "你好" = false.
Proof. repeat split; reflexivity. Qed.

Example split_on_samples :
  split_on "T"%char "2024-01-01T08:30:00.000Z" = ["2024-01-01"; "08:30:00.000Z"]
  ∧ split_on "T"%char "" = [""]
  ∧ split_on "T"%char "aTTb" = ["a"; ""; "b"].
Proof. repeat split; reflexivity. Qed.
